(** * The web scraper's link-relevance core

    A shallow embedding of the two scraper programs of the repository
    (the webhook variant [web_scraper/main.go] and the email variant),
    restricted to the Match Pipeline: [checkWebsite], [findLinksForText],
    [findClosestLink] and [resolveURL].

    Go strings are byte sequences and are embedded as [string]; [nil] and
    empty slices are both the empty list.  The parsed document is a tree
    of [Node]s in the shape of [golang.org/x/net/html]; the goquery
    operations the programs call are functions over that tree. *)

From Stdlib Require Import Ascii String.
From stdpp Require Import base strings list gmap pretty.

Open Scope string_scope.
Open Scope list_scope.

(** ** Package [strings] *)

Module strings.

Definition HasPrefix (s pre : string) : bool := String.prefix pre s.

(** [strings.Contains(s, substr)]: [substr] occurs in [s]. *)
Fixpoint Contains (s substr : string) : bool :=
  if String.prefix substr s then true
  else match s with
       | EmptyString => false
       | String _ s' => Contains s' substr
       end.

(** [strings.Cut(s, sep)]: the text before and after the first [sep]. *)
Fixpoint Cut (s sep : string) : option (string * string) :=
  if String.prefix sep s
  then Some (EmptyString, String.substring (String.length sep)
                                          (String.length s - String.length sep) s)
  else match s with
       | EmptyString => None
       | String c s' =>
           match Cut s' sep with
           | Some (before, after) => Some (String c before, after)
           | None => None
           end
       end.

Definition HasSuffix (s suf : string) : bool :=
  String.prefix (String.rev suf) (String.rev s).

Definition TrimSuffix (s suf : string) : string :=
  if HasSuffix s suf
  then String.substring 0 (String.length s - String.length suf) s
  else s.

End strings.

(** ** The parsed document: [html.Node] *)

Inductive NodeType :=
| ErrorNode | TextNode | DocumentNode | ElementNode | CommentNode | DoctypeNode.

#[global] Instance NodeType_eq_dec : EqDecision NodeType.
Proof. solve_decision. Defined.

Record Attribute := mkAttr { Key : string; Val : string }.

(** A node carries its type, its data (tag name of an element, content of
    a text node), its attributes and its children in sibling order.  The
    [Parent] pointer of the Go structure is kept on the side, in the
    [NodeRef] through which a node is reached. *)
#[local] Unset Elimination Schemes.
Inductive Node :=
| mkNode (ty : NodeType) (data : string) (attr : list Attribute) (children : list Node).
#[local] Set Elimination Schemes.

Definition Type_ (n : Node) : NodeType := let 'mkNode ty _ _ _ := n in ty.
Definition Data (n : Node) : string := let 'mkNode _ d _ _ := n in d.
Definition Attr (n : Node) : list Attribute := let 'mkNode _ _ a _ := n in a.
Definition Children (n : Node) : list Node := let 'mkNode _ _ _ cs := n in cs.

Definition isElement (n : Node) : bool := bool_decide (Type_ n = ElementNode).

(** A [*html.Node]: the node together with the chain of its [Parent]
    pointers, nearest first. *)
Record NodeRef := mkRef { ref_node : Node; ref_up : list Node }.

(** A goquery [Selection] is the ordered list of the nodes it holds. *)
Abbreviation Selection := (list NodeRef).

(** ** Selectors (package cascadia), as far as the programs use them *)

Inductive Matcher :=
| MatchTag (tag : string)              (* "a", "h1", "body" *)
| MatchUniversal                       (* "*" *)
| MatchAttrSubstr (key val : string).  (* "[key*='val']" *)

(** The selector strings of the programs are a tag name, the universal
    selector, or one attribute-substring test. *)
Definition compileMatcher (selector : string) : Matcher :=
  if String.eqb selector "*" then MatchUniversal
  else match selector with
       | String "["%char rest =>
           match strings.Cut rest "*='" with
           | Some (key, val) => MatchAttrSubstr key (strings.TrimSuffix val "']")
           | None => MatchTag selector
           end
       | _ => MatchTag selector
       end.

(** cascadia's [matchAttribute]: some attribute of that key passes. *)
Definition matchAttribute (n : Node) (key : string) (f : string -> bool) : bool :=
  existsb (fun a => String.eqb (Key a) key && f (Val a)) (Attr n).

Definition Match (m : Matcher) (n : Node) : bool :=
  match m with
  | MatchTag tag => isElement n && String.eqb (Data n) tag
  | MatchUniversal => isElement n
  | MatchAttrSubstr key val =>
      if String.eqb val "" then false
      else matchAttribute n key (fun s => strings.Contains s val)
  end.

(** [Matcher.MatchAll]: the node and its descendants that match, in
    document order. *)
Fixpoint MatchAll (m : Matcher) (up : list Node) (n : Node) : Selection :=
  match n with
  | mkNode _ _ _ cs =>
      (if Match m n then [mkRef n up] else []) ++
      (fix each (l : list Node) : Selection :=
         match l with
         | [] => []
         | c :: l' => MatchAll m (n :: up) c ++ each l'
         end) cs
  end.

(** ** goquery *)

Module goquery.

(** [s.Find(selector)] on a selection of one node: the matching
    descendants, in document order.  (The programs call [Find] only on
    the document and inside [Each], on one node at a time.) *)
Definition Find (s : NodeRef) (selector : string) : Selection :=
  flat_map (fun c => if isElement c
                     then MatchAll (compileMatcher selector)
                                   (ref_node s :: ref_up s) c
                     else [])
           (Children (ref_node s)).

(** Text of one node and its descendants. *)
Fixpoint nodeText (n : Node) : string :=
  match n with
  | mkNode ty data _ cs =>
      (if bool_decide (ty = TextNode) then data else "") +:+
      (fix each (l : list Node) : string :=
         match l with
         | [] => ""
         | c :: l' => nodeText c +:+ each l'
         end) cs
  end.

(** [s.Text()]: the texts of the selection's nodes, concatenated. *)
Definition Text (s : Selection) : string :=
  foldr (fun r acc => nodeText (ref_node r) +:+ acc) "" s.

(** [s.Attr(name)]: value and presence of the first such attribute. *)
Definition Attr (s : NodeRef) (name : string) : option string :=
  Val <$> List.find (fun a => String.eqb (Key a) name) (Attr (ref_node s)).

Definition Is (s : NodeRef) (selector : string) : bool :=
  Match (compileMatcher selector) (ref_node s).

(** [s.Parents()]: the element ancestors, nearest first. *)
Fixpoint parentsOf (up : list Node) : Selection :=
  match up with
  | [] => []
  | p :: up' => (if isElement p then [mkRef p up'] else []) ++ parentsOf up'
  end.

Definition Parents (s : NodeRef) : Selection := parentsOf (ref_up s).

(** [s.First()]. *)
Definition First (s : Selection) : Selection := take 1 s.

(** [s.Clone().Children().Remove().End()]: a copy of the node without
    its element children. *)
Definition withoutChildren (s : NodeRef) : NodeRef :=
  let 'mkNode ty data attr cs := ref_node s in
  mkRef (mkNode ty data attr (filter (fun c => isElement c = false) cs)) [].

(** A document is entered through its root node. *)
Definition Document := Node.
Definition root (doc : Document) : NodeRef := mkRef doc [].

End goquery.

(** ** The libraries behind the programs

    [net/url], [strings.ToLower] (which is Unicode-aware) and the HTML
    parser are not part of the repository; the programs are embedded over
    this interface, and every general theorem below holds for whatever
    implements it.  An error return is [None]. *)

Class GoLib := {
  URL : Type;
  url_Parse : string -> option URL;
  URL_ResolveReference : URL -> URL -> URL;
  URL_String : URL -> string;
  strings_ToLower : string -> string;
  NewDocumentFromReader : string -> option goquery.Document;
}.

(** What [http.Get] hands back in one cycle: a transport error ([None])
    or a response. *)
Record Response := mkResponse { StatusCode : Z; Body : string }.
Abbreviation Fetcher := (string -> option Response).

Definition StatusOK : Z := 200.

(** [http.Get] over what the network would answer: it builds its request
    from the URL text with [url.Parse] and returns that error before
    anything is sent; [send] answers the requests that go out. *)
Definition httpGet `{L : GoLib} (send : Fetcher) : Fetcher :=
  fun url =>
    match url_Parse url with
    | None => None
    | Some _ => send url
    end.

(** What a cycle does to the outside: lines printed with [fmt.Printf],
    lines logged with [log.Printf] (formatted arguments left out), and
    calls of the notifier with its match text and links. *)
Inductive Event :=
| Printed (msg : string)
| Logged (msg : string)
| Notified (matchText : string) (links : list string).

#[global] Instance Event_eq_dec : EqDecision Event.
Proof. solve_decision. Defined.

(** The three accumulators of [findLinksForText]. *)
Record Acc := mkAcc {
  linkMap : gmap string bool;
  productLinks : list string;
  otherLinks : list string;
}.

(** Reading a Go [map[string]bool]: a missing key reads [false]. *)
Definition mapGet (m : gmap string bool) (k : string) : bool := default false (m !! k).

Definition isEmpty (s : string) : bool := String.eqb s "".

(** ** Start-up and delivery

    The process environment is a finite map from names to values;
    [os.Getenv] reads the empty string for a name that is not set.  The
    environment a program is given below is the one [godotenv.Load] has
    left behind. *)

Abbreviation Environ := (gmap string string).

Definition Getenv (env : Environ) (key : string) : string := default "" (env !! key).

(** The parsers of the configuration: [time.ParseDuration], in
    nanoseconds, and [strconv.Atoi].  An error return is [None]. *)
Class ConfigLib := {
  time_ParseDuration : string -> option Z;
  strconv_Atoi : string -> option Z;
}.

(** How [loadConfig] ends: with [log.Fatal], which exits the process, or
    with the configuration. *)
Inductive Startup (C : Type) :=
| Fatal (msg : string)
| Loaded (config : C).
Arguments Fatal {C} msg.
Arguments Loaded {C} config.

(** How far [main] got on the ticks it was given: it exited in
    [loadConfig], it panicked in [time.NewTicker] (which refuses a
    duration that is not positive), or it waits for the next tick. *)
Inductive Halt := Exited | Panicked | Waiting.

(** Line feed and carriage return, which Go writes as escapes. *)
Definition LF : string := String (ascii_of_nat 10) "".
Definition CR : string := String (ascii_of_nat 13) "".

(** [http.Post] as one delivery sees it: a transport error ([None]) or
    the status code of the answer, for a URL, a content type and a body. *)
Abbreviation Poster := (string -> string -> string -> option Z).

(** [smtp.PlainAuth(identity, username, password, host)]. *)
Record PlainAuth := mkPlainAuth {
  auth_identity : string;
  auth_username : string;
  auth_password : string;
  auth_host : string;
}.

(** [smtp.SendMail(addr, auth, from, to, msg)]: whether it returned
    without error; a [nil] auth is [None]. *)
Abbreviation Mailer :=
  (string -> option PlainAuth -> string -> list string -> string -> bool).

(** ** The webhook variant ([web_scraper/main.go]) *)

Module Webhook.

Record Config := mkConfig {
  WebsiteURL : string;
  SearchText : string;
  DiscordWebhook : string;
  CheckInterval : Z;
}.

Section Program.
Context `{L : GoLib}.

(** [resolveURL]. *)
Definition resolveURL (baseURL : URL) (href : string) : string :=
  if isEmpty href then ""
  else match url_Parse href with
       | None => ""
       | Some parsed => URL_String (URL_ResolveReference baseURL parsed)
       end.

(** [findClosestLink]; [foundLink] is the variable the closures share. *)
Definition findClosestLink (s : NodeRef) (baseURL : URL) : string :=
  match (if goquery.Is s "a" then goquery.Attr s "href" else None) with
  | Some href => resolveURL baseURL href
  | None =>
      let foundLink := "" in
      let foundLink :=
        foldl (fun foundLink parent =>
                 if negb (isEmpty foundLink) then foundLink
                 else if goquery.Is parent "a" then
                        match goquery.Attr parent "href" with
                        | Some href => resolveURL baseURL href
                        | None => foundLink
                        end
                      else foundLink)
              foundLink (goquery.Parents s) in
      if negb (isEmpty foundLink) then foundLink else
      let foundLink :=
        foldl (fun foundLink link =>
                 match goquery.Attr link "href" with
                 | Some href => resolveURL baseURL href
                 | None => foundLink
                 end)
              foundLink (goquery.First (goquery.Find s "a")) in
      if negb (isEmpty foundLink) then foundLink else
      foldl (fun foundLink parent =>
               if negb (isEmpty foundLink) then foundLink
               else
                 foldl (fun foundLink link =>
                          match goquery.Attr link "href" with
                          | Some href =>
                              let resolved := resolveURL baseURL href in
                              if strings.Contains resolved "/products/" then resolved
                              else if isEmpty foundLink then resolved
                                   else foundLink
                          | None => foundLink
                          end)
                       foundLink (goquery.First (goquery.Find parent "a")))
            foundLink (goquery.Parents s)
  end.

(** The block each strategy ends in: a non-empty link not seen before
    is marked in [linkMap] and appended to its class. *)
Definition addLink (link : string) (st : Acc) : Acc :=
  if negb (isEmpty link) && negb (mapGet (linkMap st) link) then
    if strings.Contains link "/products/"
    then mkAcc (<[link := true]> (linkMap st)) (productLinks st ++ [link]) (otherLinks st)
    else mkAcc (<[link := true]> (linkMap st)) (productLinks st) (otherLinks st ++ [link])
  else st.

Definition productSelectors : list string :=
  ["h1"; "h2"; "h3"; "[class*='product']"; "[class*='item']"; "[id*='product']"].

(** Strategy 1: anchors whose text holds the phrase. *)
Definition scanAnchors (doc : goquery.Document) (base : URL)
    (searchTextLower : string) (st : Acc) : Acc :=
  foldl (fun st s =>
           let text := strings_ToLower (goquery.Text [s]) in
           if strings.Contains text searchTextLower then
             match goquery.Attr s "href" with
             | Some href => addLink (resolveURL base href) st
             | None => st
             end
           else st)
        st (goquery.Find (goquery.root doc) "a").

(** Strategy 2: the product selectors, one after the other. *)
Definition scanSelectors (doc : goquery.Document) (base : URL)
    (searchTextLower : string) (st : Acc) : Acc :=
  foldl (fun st selector =>
           foldl (fun st s =>
                    let text := strings_ToLower (goquery.Text [s]) in
                    if strings.Contains text searchTextLower
                    then addLink (findClosestLink s base) st
                    else st)
                 st (goquery.Find (goquery.root doc) selector))
        st productSelectors.

(** Strategy 3: every element, by its direct text. *)
Definition scanAll (doc : goquery.Document) (base : URL)
    (searchTextLower : string) (st : Acc) : Acc :=
  foldl (fun st s =>
           let directText :=
             strings_ToLower (goquery.Text [goquery.withoutChildren s]) in
           if strings.Contains directText searchTextLower
           then addLink (findClosestLink s base) st
           else st)
        st (goquery.Find (goquery.root doc) "*").

(** [findLinksForText]: the returned slice. *)
Definition findLinksForText (doc : goquery.Document) (baseURL : string)
    (searchTextLower : string) : list string :=
  match url_Parse baseURL with
  | None => []
  | Some base =>
      if strings.Contains baseURL "/products/"
         && strings.Contains
              (strings_ToLower (goquery.Text (goquery.Find (goquery.root doc) "body")))
              searchTextLower
      then [baseURL]
      else
        let st := mkAcc ∅ [] [] in
        let st := scanAnchors doc base searchTextLower st in
        let st := scanSelectors doc base searchTextLower st in
        let st := scanAll doc base searchTextLower st in
        if bool_decide (0 < length (productLinks st))
        then productLinks st
        else otherLinks st
  end.

(** [findLinksForText]: what it logs. *)
Definition findLinksForText_log (baseURL : string) : list Event :=
  match url_Parse baseURL with
  | None => [Logged "Error parsing base URL"]
  | Some _ => []
  end.

(** [checkWebsite]: one cycle, [get] being what [http.Get] answers. *)
Definition checkWebsite (get : Fetcher) (config : Config) : list Event :=
  Printed "Checking website..." ::
  match get (WebsiteURL config) with
  | None => [Logged "Error fetching website"]
  | Some resp =>
      if bool_decide (StatusCode resp ≠ StatusOK)
      then [Logged "Error: received status code"]
      else
        match NewDocumentFromReader (Body resp) with
        | None => [Logged "Error parsing HTML"]
        | Some doc =>
            let textContent :=
              foldl (fun textContent s => textContent +:+ goquery.Text [s])
                    "" (goquery.Find (goquery.root doc) "body") in
            let pageText := textContent in
            let searchTextLower := strings_ToLower (SearchText config) in
            if negb (strings.Contains (strings_ToLower pageText) searchTextLower)
            then [Printed "No match found."]
            else
              Printed "Match found! Extracting links..." ::
              findLinksForText_log (WebsiteURL config) ++
              let links :=
                findLinksForText doc (WebsiteURL config) searchTextLower in
              if bool_decide (0 < length links)
              then [Notified (SearchText config) links]
              else [Notified (SearchText config) [WebsiteURL config]]
        end
  end.

End Program.

Section Startup.
Context `{L : GoLib} `{H : ConfigLib}.

(** [getEnv]. *)
Definition getEnv (env : Environ) (key defaultValue : string) : string :=
  let value := Getenv env key in
  if negb (isEmpty value) then value else defaultValue.

(** [loadConfig]; the error text of [log.Fatalf] is left out. *)
Definition loadConfig (env : Environ) : Startup Config :=
  let websiteURL := getEnv env "WEBSITE_URL" "" in
  let searchText := getEnv env "SEARCH_TEXT" "" in
  let discordWebhook := getEnv env "DISCORD_WEBHOOK" "" in
  let intervalStr := getEnv env "CHECK_INTERVAL" "5m" in
  if isEmpty websiteURL
  then Fatal "WEBSITE_URL environment variable is required"
  else if isEmpty searchText
  then Fatal "SEARCH_TEXT environment variable is required"
  else if isEmpty discordWebhook
  then Fatal "DISCORD_WEBHOOK environment variable is required"
  else match time_ParseDuration intervalStr with
       | None => Fatal "Invalid CHECK_INTERVAL format"
       | Some interval =>
           Loaded (mkConfig websiteURL searchText discordWebhook interval)
       end.

(** [main], on the ticks it lives to see: [first] answers the fetch of
    the initial check, [ticks] the fetches of the periodic ones. *)
Definition main (env : Environ) (first : Fetcher) (ticks : list Fetcher)
  : list Event * Halt :=
  match loadConfig env with
  | Fatal msg => ([Logged msg], Exited)
  | Loaded config =>
      let out :=
        [Printed "Starting web scraper..."; Printed "Website: ";
         Printed "Search text: "; Printed "Check interval: "; Printed ""]
        ++ checkWebsite first config in
      if bool_decide (CheckInterval config <= 0)%Z then (out, Panicked)
      else (foldl (fun out get => out ++ checkWebsite get config) out ticks, Waiting)
  end.

(** The bytes the source has in front of "Match Found!". *)
Definition bell : string :=
  string_of_list_ascii
    (map ascii_of_nat [195; 176; 197; 184; 226; 128; 157; 226; 128; 157]).

(** The [linksText] builder of [sendDiscordNotification]; [i] is the
    index of the loop. *)
Definition linksText (links : list string) : string :=
  if bool_decide (0 < length links) then
    snd (foldl (fun '(i, b) link =>
                  (i + 1, b +:+ pretty (i + 1) +:+ ". " +:+ link +:+ LF))
               (0, LF +:+ LF +:+ "**Links:**" +:+ LF) links)
  else "".

(** The [message] of [sendDiscordNotification]; [now] is the formatted
    time. *)
Definition message (now : string) (config : Config) (matchText : string)
    (links : list string) : string :=
  bell +:+ " **Match Found!**" +:+ LF +:+ LF +:+ "Website: " +:+ WebsiteURL config
    +:+ LF +:+ "Search text: " +:+ matchText +:+ LF +:+ "Time: " +:+ now
    +:+ linksText links.

(** [sendDiscordNotification]; [marshal] is [json.Marshal] on a webhook
    payload of the given content. *)
Definition sendDiscordNotification (marshal : string -> option string)
    (post : Poster) (now : string) (config : Config) (matchText : string)
    (links : list string) : list Event :=
  match marshal (message now config matchText links) with
  | None => [Logged "Error marshaling webhook data"]
  | Some jsonData =>
      match post (DiscordWebhook config) "application/json" jsonData with
      | None => [Logged "Error sending Discord notification"]
      | Some status =>
          if bool_decide (200 <= status)%Z && bool_decide (status < 300)%Z
          then [Printed "Discord notification sent successfully!"]
          else [Logged "Error: Discord webhook returned status code"]
      end
  end.

End Startup.

End Webhook.

(** ** The email variant *)

Module Email.

Record Config := mkConfig {
  WebsiteURL : string;
  SearchText : string;
  SMTPHost : string;
  SMTPPort : Z;
  SMTPUsername : string;
  SMTPPassword : string;
  EmailFrom : string;
  EmailTo : string;
  CheckInterval : Z;
}.

Section Program.
Context `{L : GoLib}.

(** [resolveURL]. *)
Definition resolveURL (baseURL : URL) (href : string) : string :=
  if isEmpty href then ""
  else match url_Parse href with
       | None => ""
       | Some parsed => URL_String (URL_ResolveReference baseURL parsed)
       end.

(** [findClosestLink]; [foundLink] is the variable the closures share. *)
Definition findClosestLink (s : NodeRef) (baseURL : URL) : string :=
  match (if goquery.Is s "a" then goquery.Attr s "href" else None) with
  | Some href => resolveURL baseURL href
  | None =>
      let foundLink := "" in
      let foundLink :=
        foldl (fun foundLink parent =>
                 if negb (isEmpty foundLink) then foundLink
                 else if goquery.Is parent "a" then
                        match goquery.Attr parent "href" with
                        | Some href => resolveURL baseURL href
                        | None => foundLink
                        end
                      else foundLink)
              foundLink (goquery.Parents s) in
      if negb (isEmpty foundLink) then foundLink else
      let foundLink :=
        foldl (fun foundLink link =>
                 match goquery.Attr link "href" with
                 | Some href => resolveURL baseURL href
                 | None => foundLink
                 end)
              foundLink (goquery.First (goquery.Find s "a")) in
      if negb (isEmpty foundLink) then foundLink else
      foldl (fun foundLink parent =>
               if negb (isEmpty foundLink) then foundLink
               else
                 foldl (fun foundLink link =>
                          match goquery.Attr link "href" with
                          | Some href =>
                              let resolved := resolveURL baseURL href in
                              if strings.Contains resolved "/products/" then resolved
                              else if isEmpty foundLink then resolved
                                   else foundLink
                          | None => foundLink
                          end)
                       foundLink (goquery.First (goquery.Find parent "a")))
            foundLink (goquery.Parents s)
  end.

(** The block each strategy ends in: a non-empty link not seen before
    is marked in [linkMap] and appended to its class. *)
Definition addLink (link : string) (st : Acc) : Acc :=
  if negb (isEmpty link) && negb (mapGet (linkMap st) link) then
    if strings.Contains link "/products/"
    then mkAcc (<[link := true]> (linkMap st)) (productLinks st ++ [link]) (otherLinks st)
    else mkAcc (<[link := true]> (linkMap st)) (productLinks st) (otherLinks st ++ [link])
  else st.

Definition productSelectors : list string :=
  ["h1"; "h2"; "h3"; "[class*='product']"; "[class*='item']"; "[id*='product']"].

(** Strategy 1: anchors whose text holds the phrase. *)
Definition scanAnchors (doc : goquery.Document) (base : URL)
    (searchTextLower : string) (st : Acc) : Acc :=
  foldl (fun st s =>
           let text := strings_ToLower (goquery.Text [s]) in
           if strings.Contains text searchTextLower then
             match goquery.Attr s "href" with
             | Some href => addLink (resolveURL base href) st
             | None => st
             end
           else st)
        st (goquery.Find (goquery.root doc) "a").

(** Strategy 2: the product selectors, one after the other. *)
Definition scanSelectors (doc : goquery.Document) (base : URL)
    (searchTextLower : string) (st : Acc) : Acc :=
  foldl (fun st selector =>
           foldl (fun st s =>
                    let text := strings_ToLower (goquery.Text [s]) in
                    if strings.Contains text searchTextLower
                    then addLink (findClosestLink s base) st
                    else st)
                 st (goquery.Find (goquery.root doc) selector))
        st productSelectors.

(** Strategy 3: every element, by its direct text. *)
Definition scanAll (doc : goquery.Document) (base : URL)
    (searchTextLower : string) (st : Acc) : Acc :=
  foldl (fun st s =>
           let directText :=
             strings_ToLower (goquery.Text [goquery.withoutChildren s]) in
           if strings.Contains directText searchTextLower
           then addLink (findClosestLink s base) st
           else st)
        st (goquery.Find (goquery.root doc) "*").

(** [findLinksForText]: the returned slice. *)
Definition findLinksForText (doc : goquery.Document) (baseURL : string)
    (searchTextLower : string) : list string :=
  match url_Parse baseURL with
  | None => []
  | Some base =>
      if strings.Contains baseURL "/products/"
         && strings.Contains
              (strings_ToLower (goquery.Text (goquery.Find (goquery.root doc) "body")))
              searchTextLower
      then [baseURL]
      else
        let st := mkAcc ∅ [] [] in
        let st := scanAnchors doc base searchTextLower st in
        let st := scanSelectors doc base searchTextLower st in
        let st := scanAll doc base searchTextLower st in
        if bool_decide (0 < length (productLinks st))
        then productLinks st
        else otherLinks st
  end.

(** [findLinksForText]: what it logs. *)
Definition findLinksForText_log (baseURL : string) : list Event :=
  match url_Parse baseURL with
  | None => [Logged "Error parsing base URL"]
  | Some _ => []
  end.

(** [checkWebsite]: one cycle, [get] being what [http.Get] answers. *)
Definition checkWebsite (get : Fetcher) (config : Config) : list Event :=
  Printed "Checking website..." ::
  match get (WebsiteURL config) with
  | None => [Logged "Error fetching website"]
  | Some resp =>
      if bool_decide (StatusCode resp ≠ StatusOK)
      then [Logged "Error: received status code"]
      else
        match NewDocumentFromReader (Body resp) with
        | None => [Logged "Error parsing HTML"]
        | Some doc =>
            let textContent :=
              foldl (fun textContent s => textContent +:+ goquery.Text [s])
                    "" (goquery.Find (goquery.root doc) "body") in
            let pageText := textContent in
            let searchTextLower := strings_ToLower (SearchText config) in
            if negb (strings.Contains (strings_ToLower pageText) searchTextLower)
            then [Printed "No match found."]
            else
              Printed "Match found! Extracting links..." ::
              findLinksForText_log (WebsiteURL config) ++
              let links :=
                findLinksForText doc (WebsiteURL config) searchTextLower in
              if bool_decide (0 < length links)
              then [Notified (SearchText config) links]
              else [Notified (SearchText config) [WebsiteURL config]]
        end
  end.

End Program.

Section Startup.
Context `{L : GoLib} `{H : ConfigLib}.

(** [getEnv]. *)
Definition getEnv (env : Environ) (key defaultValue : string) : string :=
  let value := Getenv env key in
  if negb (isEmpty value) then value else defaultValue.

(** [loadConfig]; the error text of [log.Fatalf] is left out. *)
Definition loadConfig (env : Environ) : Startup Config :=
  let websiteURL := getEnv env "WEBSITE_URL" "" in
  let searchText := getEnv env "SEARCH_TEXT" "" in
  let smtpHost := getEnv env "SMTP_HOST" "" in
  let smtpPortStr := getEnv env "SMTP_PORT" "587" in
  let smtpUsername := getEnv env "SMTP_USERNAME" "" in
  let smtpPassword := getEnv env "SMTP_PASSWORD" "" in
  let emailFrom := getEnv env "EMAIL_FROM" "" in
  let emailTo := getEnv env "EMAIL_TO" "" in
  let intervalStr := getEnv env "CHECK_INTERVAL" "5m" in
  if isEmpty websiteURL
  then Fatal "WEBSITE_URL environment variable is required"
  else if isEmpty searchText
  then Fatal "SEARCH_TEXT environment variable is required"
  else if isEmpty smtpHost
  then Fatal "SMTP_HOST environment variable is required"
  else if isEmpty emailFrom
  then Fatal "EMAIL_FROM environment variable is required"
  else if isEmpty emailTo
  then Fatal "EMAIL_TO environment variable is required"
  else match strconv_Atoi smtpPortStr with
       | None => Fatal "Invalid SMTP_PORT"
       | Some smtpPort =>
           match time_ParseDuration intervalStr with
           | None => Fatal "Invalid CHECK_INTERVAL format"
           | Some interval =>
               Loaded (mkConfig websiteURL searchText smtpHost smtpPort
                                smtpUsername smtpPassword emailFrom emailTo interval)
           end
       end.

(** [main], on the ticks it lives to see: [first] answers the fetch of
    the initial check, [ticks] the fetches of the periodic ones. *)
Definition main (env : Environ) (first : Fetcher) (ticks : list Fetcher)
  : list Event * Halt :=
  match loadConfig env with
  | Fatal msg => ([Logged msg], Exited)
  | Loaded config =>
      let out :=
        [Printed "Starting web scraper..."; Printed "Website: ";
         Printed "Search text: "; Printed "Check interval: "; Printed ""]
        ++ checkWebsite first config in
      if bool_decide (CheckInterval config <= 0)%Z then (out, Panicked)
      else (foldl (fun out get => out ++ checkWebsite get config) out ticks, Waiting)
  end.

(** The [linksText] builder of [sendEmailNotification]; [i] is the
    index of the loop. *)
Definition linksText (links : list string) : string :=
  if bool_decide (0 < length links) then
    snd (foldl (fun '(i, b) link =>
                  (i + 1, b +:+ pretty (i + 1) +:+ ". " +:+ link +:+ LF))
               (0, LF +:+ LF +:+ "Links:" +:+ LF) links)
  else "".

Definition subject (matchText : string) : string := "Match Found: " +:+ matchText.

(** The [body] of [sendEmailNotification]; [now] is the formatted time. *)
Definition body (now : string) (config : Config) (matchText : string)
    (links : list string) : string :=
  "Match Found!" +:+ LF +:+ LF +:+ "Website: " +:+ WebsiteURL config
    +:+ LF +:+ "Search text: " +:+ matchText +:+ LF +:+ "Time: " +:+ now
    +:+ linksText links.

(** The [message] of [sendEmailNotification], built up line by line. *)
Definition message (now : string) (config : Config) (matchText : string)
    (links : list string) : string :=
  let message := "From: " +:+ EmailFrom config +:+ CR +:+ LF in
  let message := message +:+ ("To: " +:+ EmailTo config +:+ CR +:+ LF) in
  let message := message +:+ ("Subject: " +:+ subject matchText +:+ CR +:+ LF) in
  let message := message +:+ ("MIME-Version: 1.0" +:+ CR +:+ LF) in
  let message := message +:+ ("Content-Type: text/plain; charset=UTF-8" +:+ CR +:+ LF) in
  let message := message +:+ (CR +:+ LF) in
  message +:+ body now config matchText links.

(** The [auth] of [sendEmailNotification]. *)
Definition auth (config : Config) : option PlainAuth :=
  if negb (isEmpty (SMTPUsername config)) && negb (isEmpty (SMTPPassword config))
  then Some (mkPlainAuth "" (SMTPUsername config) (SMTPPassword config)
                         (SMTPHost config))
  else None.

Definition addr (config : Config) : string :=
  SMTPHost config +:+ ":" +:+ pretty (SMTPPort config).

(** [sendEmailNotification]. *)
Definition sendEmailNotification (sendMail : Mailer) (now : string)
    (config : Config) (matchText : string) (links : list string) : list Event :=
  if sendMail (addr config) (auth config) (EmailFrom config) [EmailTo config]
              (message now config matchText links)
  then [Printed "Email notification sent successfully!"]
  else [Logged "Error sending email"].

End Startup.

End Email.

(** ** A model of the libraries *)

Module NetURL.

(** Modelled from the spec: the [net/url] package behind the URL
    Resolver (section 4.1: an unparsable href gives no result, otherwise
    standard relative-reference resolution with scheme and host
    inheritance, dot-segment normalisation, query and fragment kept).
    Percent-escapes are carried verbatim, neither decoded nor checked,
    and host names are not validated. *)
Record URL := mkURL {
  Scheme : string;
  Opaque : string;
  User : option string;
  Host : string;
  Path : string;
  ForceQuery : bool;
  RawQuery : string;
  Fragment : string;
}.

Definition isCTL (c : ascii) : bool :=
  let n := nat_of_ascii c in (n <? 32)%nat || (n =? 127)%nat.

Fixpoint stringContainsCTLByte (s : string) : bool :=
  match s with
  | EmptyString => false
  | String c s' => isCTL c || stringContainsCTLByte s'
  end.

Definition isLetter (c : ascii) : bool :=
  let n := nat_of_ascii c in
  ((97 <=? n) && (n <=? 122) || (65 <=? n) && (n <=? 90))%nat.

Definition isSchemeExtra (c : ascii) : bool :=
  let n := nat_of_ascii c in
  ((48 <=? n) && (n <=? 57) || (n =? 43) || (n =? 45) || (n =? 46))%nat.

(** [getScheme]: [None] is the error "missing protocol scheme"; the
    scheme is empty when the text does not start with one.  [i] counts
    the bytes already read, [seen] holds them. *)
Fixpoint getScheme (i : nat) (seen rest rawURL : string)
  : option (string * string) :=
  match rest with
  | EmptyString => Some ("", rawURL)
  | String c rest' =>
      if isLetter c then getScheme (S i) (seen +:+ String c "") rest' rawURL
      else if isSchemeExtra c then
             if (i =? 0)%nat then Some ("", rawURL)
             else getScheme (S i) (seen +:+ String c "") rest' rawURL
      else if Ascii.eqb c ":" then
             if (i =? 0)%nat then None else Some (seen, rest')
      else Some ("", rawURL)
  end.

Definition toLowerByte (c : ascii) : ascii :=
  let n := nat_of_ascii c in
  if ((65 <=? n) && (n <=? 90))%nat then ascii_of_nat (n + 32) else c.

(** Modelled from the spec: [strings.ToLower] on ASCII text, the
    lower-casing of section 4.2. *)
Fixpoint toLowerASCII (s : string) : string :=
  match s with
  | EmptyString => EmptyString
  | String c s' => String (toLowerByte c) (toLowerASCII s')
  end.

Fixpoint Count (s : string) (c : ascii) : nat :=
  match s with
  | EmptyString => 0
  | String d s' => (if Ascii.eqb c d then 1 else 0) + Count s' c
  end.

(** The text before and after the last occurrence of [sep]. *)
Definition CutLast (s sep : string) : option (string * string) :=
  match strings.Cut (String.rev s) (String.rev sep) with
  | Some (after, before) => Some (String.rev before, String.rev after)
  | None => None
  end.

(** Modelled from the spec: [parse] of [net/url], which reads everything
    before the fragment and decides what is an unparsable href
    (section 4.1). *)
Definition parse (rawURL : string) : option URL :=
  if stringContainsCTLByte rawURL then None
  else if String.eqb rawURL "*" then Some (mkURL "" "" None "" "*" false "" "")
  else
    match getScheme 0 "" rawURL rawURL with
    | None => None
    | Some (scheme, rest) =>
        let scheme := toLowerASCII scheme in
        let '(rest, force, query) :=
          if strings.HasSuffix rest "?" && (Count rest "?" =? 1)%nat
          then (strings.TrimSuffix rest "?", true, "")
          else match strings.Cut rest "?" with
               | Some (r, q) => (r, false, q)
               | None => (rest, false, "")
               end in
        if negb (strings.HasPrefix rest "/") && negb (isEmpty scheme)
        then Some (mkURL scheme rest None "" "" force query "")
        else
          let segment :=
            match strings.Cut rest "/" with
            | Some (seg, _) => seg
            | None => rest
            end in
          if negb (strings.HasPrefix rest "/") && strings.Contains segment ":"
          then None
          else if (negb (isEmpty scheme) || negb (strings.HasPrefix rest "///"))
                  && strings.HasPrefix rest "//"
          then
            let after := String.substring 2 (String.length rest - 2) rest in
            let '(authority, rest) :=
              match strings.Cut after "/" with
              | Some (a, r) => (a, "/" +:+ r)
              | None => (after, "")
              end in
            let '(user, host) :=
              match CutLast authority "@" with
              | Some (u, h) => (Some u, h)
              | None => (None, authority)
              end in
            Some (mkURL scheme "" user host rest force query "")
          else Some (mkURL scheme "" None "" rest force query "")
    end.

(** Modelled from the spec: [url.Parse] of [net/url] (section 4.1). *)
Definition Parse (rawURL : string) : option URL :=
  let '(u, frag) :=
    match strings.Cut rawURL "#" with
    | Some (u, frag) => (u, frag)
    | None => (rawURL, "")
    end in
  match parse u with
  | None => None
  | Some url =>
      Some (mkURL (Scheme url) (Opaque url) (User url) (Host url) (Path url)
                  (ForceQuery url) (RawQuery url) frag)
  end.

Fixpoint Split (n : nat) (s : string) : list string :=
  match n with
  | O => [s]
  | S n' =>
      match strings.Cut s "/" with
      | Some (elem, remaining) => elem :: Split n' remaining
      | None => [s]
      end
  end.

(** Modelled from the spec: [resolvePath] of [net/url], the dot-segment
    normalisation of section 4.1: merge [ref] into [base], then drop "." and ".."
    segments; [dst] is the text written after the leading slash. *)
Definition resolvePath (base ref : string) : string :=
  let full :=
    if isEmpty ref then base
    else if negb (strings.HasPrefix ref "/") then
           match CutLast base "/" with
           | Some (dir, _) => dir +:+ "/" +:+ ref
           | None => ref
           end
         else ref in
  if isEmpty full then ""
  else
    let elems := Split (String.length full) full in
    let '(dst, first) :=
      foldl (fun '(dst, first) elem =>
               if String.eqb elem "." then (dst, false)
               else if String.eqb elem ".." then
                      match CutLast dst "/" with
                      | Some (keep, _) => (keep, first)
                      | None => ("", true)
                      end
               else ((if first then dst else dst +:+ "/") +:+ elem, false))
            ("", true) elems in
    let elem := List.last elems "" in
    let dst := if String.eqb elem "." || String.eqb elem ".."
               then dst +:+ "/" else dst in
    if strings.HasPrefix dst "/" then dst else "/" +:+ dst.

Definition setPath (u : URL) (p : string) : URL :=
  mkURL (Scheme u) (Opaque u) (User u) (Host u) p
        (ForceQuery u) (RawQuery u) (Fragment u).

(** Modelled from the spec: [URL.ResolveReference] of [net/url], the
    standard relative-reference resolution of section 4.1. *)
Definition ResolveReference (u ref : URL) : URL :=
  let url :=
    if isEmpty (Scheme ref)
    then mkURL (Scheme u) (Opaque ref) (User ref) (Host ref) (Path ref)
               (ForceQuery ref) (RawQuery ref) (Fragment ref)
    else ref in
  if negb (isEmpty (Scheme ref)) || negb (isEmpty (Host ref))
     || bool_decide (User ref ≠ None)
  then setPath url (resolvePath (Path ref) "")
  else if negb (isEmpty (Opaque ref))
  then mkURL (Scheme url) (Opaque url) None "" ""
             (ForceQuery url) (RawQuery url) (Fragment url)
  else
    let url :=
      if isEmpty (Path ref) && negb (ForceQuery ref) && isEmpty (RawQuery ref)
      then mkURL (Scheme url) (Opaque url) (User url) (Host url) (Path url)
                 (ForceQuery url) (RawQuery u)
                 (if isEmpty (Fragment ref) then Fragment u else Fragment url)
      else url in
    if isEmpty (Path ref) && negb (isEmpty (Opaque u))
    then mkURL (Scheme url) (Opaque u) None "" ""
               (ForceQuery url) (RawQuery url) (Fragment url)
    else mkURL (Scheme url) (Opaque url) (User u) (Host u)
               (resolvePath (Path u) (Path ref))
               (ForceQuery url) (RawQuery url) (Fragment url).

(** Modelled from the spec: [URL.String] of [net/url], the absolute URL
    as a string (section 4.1). *)
Definition String_ (u : URL) : string :=
  (if isEmpty (Scheme u) then "" else Scheme u +:+ ":") +:+
  (if negb (isEmpty (Opaque u)) then Opaque u
   else
     (if negb (isEmpty (Scheme u)) || negb (isEmpty (Host u))
         || bool_decide (User u ≠ None)
      then
        (if negb (isEmpty (Host u)) || negb (isEmpty (Path u))
            || bool_decide (User u ≠ None)
         then "//" else "") +:+
        (match User u with Some ui => ui +:+ "@" | None => "" end) +:+
        Host u
      else "") +:+
     (if negb (isEmpty (Path u)) && negb (strings.HasPrefix (Path u) "/")
         && negb (isEmpty (Host u))
      then "/" else "") +:+
     Path u) +:+
  (if ForceQuery u || negb (isEmpty (RawQuery u))
   then "?" +:+ RawQuery u else "") +:+
  (if isEmpty (Fragment u) then "" else "#" +:+ Fragment u).

(** Modelled from the spec: the HTML parser on a body without markup,
    whose document is the text inside [html], [head] and [body]. *)
Definition plainDocument (body : string) : option goquery.Document :=
  Some (mkNode DocumentNode "" []
          [mkNode ElementNode "html" []
             [mkNode ElementNode "head" [] [];
              mkNode ElementNode "body" [] [mkNode TextNode body [] []]]]).

End NetURL.

#[global] Instance lib : GoLib := {|
  URL := NetURL.URL;
  url_Parse := NetURL.Parse;
  URL_ResolveReference := NetURL.ResolveReference;
  URL_String := NetURL.String_;
  strings_ToLower := NetURL.toLowerASCII;
  NewDocumentFromReader := NetURL.plainDocument;
|}.

Module GoConfig.

Definition isDigit (c : ascii) : bool :=
  let n := nat_of_ascii c in ((48 <=? n) && (n <=? 57))%nat.

(** The value of a run of decimal digits, [None] on any other byte. *)
Fixpoint digits (acc : Z) (s : string) : option Z :=
  match s with
  | EmptyString => Some acc
  | String c s' =>
      if isDigit c
      then digits (acc * 10 + Z.of_nat (nat_of_ascii c) - 48)%Z s'
      else None
  end.

(** Modelled from the spec: [strconv.Atoi], which reads [SMTP_PORT]: an
    optional sign and decimal digits, within the 64-bit range. *)
Definition Atoi (s : string) : option Z :=
  let '(neg, ds) :=
    match s with
    | String "-"%char r => (true, r)
    | String "+"%char r => (false, r)
    | _ => (false, s)
    end in
  if isEmpty ds then None
  else match digits 0 ds with
       | None => None
       | Some n =>
           let v := if neg then (- n)%Z else n in
           if bool_decide (- 2 ^ 63 <= v)%Z && bool_decide (v < 2 ^ 63)%Z
           then Some v else None
       end.

(** The leading bytes of [s] that pass [f], and the rest. *)
Fixpoint span (f : ascii -> bool) (s : string) : string * string :=
  match s with
  | EmptyString => ("", "")
  | String c s' =>
      if f c then let '(a, b) := span f s' in (String c a, b)
      else ("", s)
  end.

Definition unitOf (u : string) : option Z :=
  if String.eqb u "ns" then Some 1%Z
  else if String.eqb u "us" then Some 1000%Z
  else if String.eqb u "ms" then Some 1000000%Z
  else if String.eqb u "s" then Some 1000000000%Z
  else if String.eqb u "m" then Some 60000000000%Z
  else if String.eqb u "h" then Some 3600000000000%Z
  else None.

(** The groups of a duration, a whole number and a unit each. *)
Fixpoint groups (fuel : nat) (d : Z) (s : string) : option Z :=
  match fuel with
  | O => None
  | S fuel' =>
      if isEmpty s then Some d
      else
        let '(ds, rest) := span isDigit s in
        let '(u, rest) :=
          span (fun c => negb (isDigit c || Ascii.eqb c ".")) rest in
        if isEmpty ds then None
        else match digits 0 ds, unitOf u with
             | Some v, Some scale => groups fuel' (d + v * scale)%Z rest
             | _, _ => None
             end
  end.

(** Modelled from the spec: [time.ParseDuration], which reads
    [CHECK_INTERVAL] (a duration string such as "5m", "1h" or "2h30m"),
    in nanoseconds.  Fractions and the micro sign are not read. *)
Definition ParseDuration (s : string) : option Z :=
  let '(neg, s) :=
    match s with
    | String "-"%char r => (true, r)
    | String "+"%char r => (false, r)
    | _ => (false, s)
    end in
  if String.eqb s "0" then Some 0%Z
  else if isEmpty s then None
  else match groups (S (String.length s)) 0 s with
       | None => None
       | Some d =>
           if bool_decide (d < 2 ^ 63)%Z
           then Some (if neg then (- d)%Z else d) else None
       end.

End GoConfig.

#[global] Instance configLib : ConfigLib := {|
  time_ParseDuration := GoConfig.ParseDuration;
  strconv_Atoi := GoConfig.Atoi;
|}.

(** ** Vocabulary of the specification *)

(** Product class: the resolved URL holds the "/products/" segment. *)
Definition isProduct (link : string) : bool := strings.Contains link "/products/".

(** The links of [l] in order, each kept at its first occurrence only,
    and not at all when it is already in [seen]. *)
Fixpoint keepFirst (seen l : list string) : list string :=
  match l with
  | [] => []
  | x :: l' =>
      if bool_decide (x ∈ seen) then keepFirst seen l'
      else x :: keepFirst (x :: seen) l'
  end.

(** Candidate links of a stream of resolutions: the non-empty ones, each
    at the position of its first discovery. *)
Definition candidateLinks (found : list string) : list string :=
  keepFirst [] (filter (λ l, l ≠ "") found).

(** The first non-empty string of a list, or the empty string. *)
Definition firstNonEmpty (l : list string) : string :=
  default "" (List.find (λ x, negb (isEmpty x)) l).

(** The Match Result a cycle amounts to: whether the notifier was called,
    and with which links. *)
Record MatchResult := mkResult { matched : bool; links : list string }.

Definition notifications (trace : list Event) : list (string * list string) :=
  omap (λ e, match e with Notified t ls => Some (t, ls) | _ => None end) trace.

Definition matchResult (trace : list Event) : MatchResult :=
  match notifications trace with
  | [] => mkResult false []
  | (_, ls) :: _ => mkResult true ls
  end.

(** The node and all its descendants, in document order. *)
Fixpoint subtree (up : list Node) (n : Node) : Selection :=
  match n with
  | mkNode _ _ _ cs =>
      mkRef n up ::
      (fix each (l : list Node) : Selection :=
         match l with
         | [] => []
         | c :: l' => subtree (n :: up) c ++ each l'
         end) cs
  end.

(** Everything [Find] can reach from a node: the subtrees of its element
    children. *)
Definition below (s : NodeRef) : Selection :=
  flat_map (λ c, if isElement c then subtree (ref_node s :: ref_up s) c else [])
           (Children (ref_node s)).

(** The tests behind the six product selectors. *)
Definition isHeading (n : Node) : bool :=
  isElement n && (String.eqb (Data n) "h1" || String.eqb (Data n) "h2"
                  || String.eqb (Data n) "h3").

Definition attrContains (n : Node) (key val : string) : bool :=
  matchAttribute n key (λ s, strings.Contains s val).

Section Vocabulary.
Context `{L : GoLib}.

(** The whole-text test both programs apply to a selection. *)
Definition holdsPhrase (s : Selection) (searchTextLower : string) : bool :=
  strings.Contains (strings_ToLower (goquery.Text s)) searchTextLower.

(** What the direct-anchor scan offers: the resolution of every
    anchor with an href whose text holds the phrase. *)
Definition anchorOffers (doc : goquery.Document) (base : URL) (phrase : string)
  : list string :=
  omap (λ s, if holdsPhrase [s] phrase
             then Webhook.resolveURL base <$> goquery.Attr s "href"
             else None)
       (goquery.Find (goquery.root doc) "a").

(** The elements the structural scan visits, selector after selector. *)
Definition scanned (doc : goquery.Document) : Selection :=
  flat_map (goquery.Find (goquery.root doc)) Webhook.productSelectors.

Definition selectorOffers (doc : goquery.Document) (base : URL) (phrase : string)
  : list string :=
  omap (λ s, if holdsPhrase [s] phrase
             then Some (Webhook.findClosestLink s base)
             else None)
       (scanned doc).

Definition directOffers (doc : goquery.Document) (base : URL) (phrase : string)
  : list string :=
  omap (λ s, if holdsPhrase [goquery.withoutChildren s] phrase
             then Some (Webhook.findClosestLink s base)
             else None)
       (goquery.Find (goquery.root doc) "*").

(** Every link the three strategies come upon, in discovery order. *)
Definition discovered (doc : goquery.Document) (base : URL) (phrase : string)
  : list string :=
  anchorOffers doc base phrase ++ selectorOffers doc base phrase
    ++ directOffers doc base phrase.

(** The self-page short-circuit applies. *)
Definition onProductPage (doc : goquery.Document) (baseURL phrase : string) : bool :=
  strings.Contains baseURL "/products/"
  && holdsPhrase (goquery.Find (goquery.root doc) "body") phrase.

(** Step 1: the element's own href, when it is an anchor that has one. *)
Definition selfLink (s : NodeRef) (base : URL) : option string :=
  if goquery.Is s "a" then Webhook.resolveURL base <$> goquery.Attr s "href"
  else None.

(** Step 2: the hrefs of the ancestor anchors, nearest first. *)
Definition ancestorLinks (s : NodeRef) (base : URL) : list string :=
  omap (λ p, selfLink p base) (goquery.Parents s).

(** Step 3: the href of the first anchor among the descendants. *)
Definition firstAnchorLink (s : NodeRef) (base : URL) : list string :=
  omap (λ l, Webhook.resolveURL base <$> goquery.Attr l "href")
       (goquery.First (goquery.Find s "a")).

(** Step 4: the same for each ancestor, nearest first. *)
Definition containerLinks (s : NodeRef) (base : URL) : list string :=
  flat_map (λ p, firstAnchorLink p base) (goquery.Parents s).

(** The chain read with every step skipping an href that resolves to
    nothing (the reading the code does not follow at step 1). *)
Definition closestLinkSkipping (s : NodeRef) (base : URL) : string :=
  firstNonEmpty (option_list (selfLink s base) ++ ancestorLinks s base
                   ++ firstAnchorLink s base ++ containerLinks s base).

(** The cycle got as far as the whole-page test: the page was fetched
    with status 200 and parsed into [doc]. *)
Definition reached (get : Fetcher) (url : string) (doc : goquery.Document) : Prop :=
  ∃ resp, get url = Some resp ∧ StatusCode resp = StatusOK
          ∧ NewDocumentFromReader (Body resp) = Some doc.

(** The whole-page test of [checkWebsite]. *)
Definition pageMatches (doc : goquery.Document) (searchText : string) : bool :=
  holdsPhrase (goquery.Find (goquery.root doc) "body") (strings_ToLower searchText).

(** The final link list of a cycle that matched. *)
Definition finalLinks (doc : goquery.Document) (url searchText : string)
  : list string :=
  let links := Webhook.findLinksForText doc url (strings_ToLower searchText) in
  if bool_decide (0 < length links) then links else [url].

End Vocabulary.

(** ** Sample inputs *)

Module Samples.

Definition elem (tag : string) (attr : list Attribute) (cs : list Node) : Node :=
  mkNode ElementNode tag attr cs.
Definition text (s : string) : Node := mkNode TextNode s [] [].

(** The document the parser builds around the given body content. *)
Definition page (body : list Node) : goquery.Document :=
  mkNode DocumentNode "" []
    [elem "html" [] [elem "head" [] []; elem "body" [] body]].

(** [https://x.test], parsed. *)
Definition base : NetURL.URL := NetURL.mkURL "https" "" None "x.test" "" false "" "".

(** A listing in which one product is linked twice and matched by all
    three strategies, next to a link of the other class. *)
Definition listing : goquery.Document :=
  page [elem "a" [mkAttr "href" "/products/7"] [text "Blue Widget in stock"];
        elem "div" [mkAttr "class" "product-card"]
          [elem "h2" [] [text "Blue Widget In Stock"];
           elem "a" [mkAttr "href" "/products/7"] [text "view"]];
        elem "a" [mkAttr "href" "/about"] [text "in stock info"]].

(** An anchor whose href is empty, after a sibling anchor that is fine. *)
Definition emptyHref : Node := elem "a" [mkAttr "href" ""] [text "in stock"].
Definition siblings : Node :=
  elem "div" [] [elem "a" [mkAttr "href" "/p/1"] [text "x"]; emptyHref].
Definition broken : goquery.Document := page [siblings].
Definition brokenAnchor : NodeRef :=
  mkRef emptyHref
    [siblings; elem "body" [] [siblings];
     elem "html" [] [elem "head" [] []; elem "body" [] [siblings]]; broken].

(** A container marked by the given attribute only, whose text holds
    the phrase across two children. *)
Definition card (key : string) : Node :=
  elem "div" [mkAttr key "item-1"]
    [elem "span" [] [text "in "]; elem "span" [] [text "stock"];
     elem "a" [mkAttr "href" "/p/9"] [text "buy"]].
Definition marked (key : string) : goquery.Document := page [card key].
Definition markedCard (key : string) : NodeRef :=
  mkRef (card key)
    [elem "body" [] [card key];
     elem "html" [] [elem "head" [] []; elem "body" [] [card key]]; marked key].

(** A text whose nearer container offers a link of the other class and
    whose further container offers a product link. *)
Definition inner : Node :=
  elem "div" []
    [elem "a" [mkAttr "href" "/other"] [text "more"];
     elem "p" [] [text "in stock"]].
Definition nested : Node :=
  elem "section" []
    [elem "a" [mkAttr "href" "/products/1"] [text "Blue Widget"]; inner].
Definition nestedPage : goquery.Document := page [nested].
Definition nestedText : NodeRef :=
  mkRef (elem "p" [] [text "in stock"])
    [inner; nested; elem "body" [] [nested];
     elem "html" [] [elem "head" [] []; elem "body" [] [nested]]; nestedPage].

(** A fetch through [http.Get] that every server answers with status 200
    and the given body. *)
Definition serves (body : string) : Fetcher :=
  httpGet (L := lib) (λ _, Some (mkResponse 200 body)).

Definition webhook (url : string) : Webhook.Config :=
  Webhook.mkConfig url "In Stock" "https://discord.test/hook" 300000000000.
Definition email (url : string) : Email.Config :=
  Email.mkConfig url "In Stock" "smtp.x.test" 587 "" "" "from@x.test" "to@x.test"
                 300000000000.

(** A text-only page, as [NetURL.plainDocument] parses it. *)
Definition plain (body : string) : goquery.Document := page [text body].

End Samples.

(** ** Vocabulary of the further properties *)

(** A node and all the nodes below it. *)
Fixpoint nodesOf (n : Node) : list Node :=
  match n with
  | mkNode _ _ _ cs =>
      n :: (fix each (l : list Node) : list Node :=
              match l with
              | [] => []
              | c :: l' => nodesOf c ++ each l'
              end) cs
  end.

(** The element and its ancestors are nodes of the document. *)
Definition inDocument (doc : goquery.Document) (s : NodeRef) : Prop :=
  ref_node s ∈ nodesOf doc ∧ ∀ p, p ∈ ref_up s → p ∈ nodesOf doc.

Section OriginVocabulary.
Context `{L : GoLib}.

(** The link is the resolution of the href of an anchor of the document. *)
Definition fromAnchor (doc : goquery.Document) (base : URL) (x : string) : Prop :=
  ∃ a href, ref_node a ∈ nodesOf doc ∧ goquery.Is a "a" = true
            ∧ goquery.Attr a "href" = Some href
            ∧ x = Webhook.resolveURL base href.

End OriginVocabulary.

(** The accumulator is coherent: [linkMap] marks exactly the links of the
    two slices, which hold no link twice, no empty link, and each link in
    the slice of its class. *)
Definition AccOk (st : Acc) : Prop :=
  NoDup (productLinks st ++ otherLinks st)
  ∧ (∀ l, mapGet (linkMap st) l = true ↔ l ∈ productLinks st ++ otherLinks st)
  ∧ (∀ l, l ∈ productLinks st → l ≠ "" ∧ isProduct l = true)
  ∧ (∀ l, l ∈ otherLinks st → l ≠ "" ∧ isProduct l = false).

(** The lines of a links section: the links numbered from 1, one a line. *)
Definition numbered (links : list string) : list string :=
  imap (λ i link, pretty (i + 1) +:+ ". " +:+ link +:+ LF) links.

(** The text of some lines, one after the other. *)
Definition joined (lines : list string) : string :=
  foldr String.append "" lines.

(** A sample environment of the webhook program, and of the email one. *)
Definition webhookEnv : Environ :=
  <["WEBSITE_URL" := "https://x.test/"]>
    (<["SEARCH_TEXT" := "In Stock"]>
       (<["DISCORD_WEBHOOK" := "https://discord.test/hook"]> ∅)).

Definition emailEnv : Environ :=
  <["WEBSITE_URL" := "https://x.test/"]>
    (<["SEARCH_TEXT" := "In Stock"]>
       (<["SMTP_HOST" := "smtp.x.test"]>
          (<["EMAIL_FROM" := "from@x.test"]>
             (<["EMAIL_TO" := "to@x.test"]> ∅)))).

(** ** URL texts *)

(** Every byte of [s] satisfies [f]. *)
Fixpoint allBytes (f : ascii → bool) (s : string) : bool :=
  match s with
  | EmptyString => true
  | String c s' => f c && allBytes f s'
  end.

(** The unreserved bytes of a URL: letters, digits, "-", ".", "_", "~". *)
Definition plainByte (c : ascii) : bool :=
  NetURL.isLetter c || GoConfig.isDigit c || Ascii.eqb c "-" || Ascii.eqb c "."
  || Ascii.eqb c "_" || Ascii.eqb c "~".









(** A part that, when there, is not empty and holds bytes of [f] only. *)
Definition okPart (f : ascii → bool) (o : option string) : bool :=
  match o with
  | Some x => negb (isEmpty x) && allBytes f x
  | None => true
  end.






(** ** General facts *)

Lemma isEmpty_true s : isEmpty s = true ↔ s = "".
Proof. unfold isEmpty. apply String.eqb_eq. Qed.

Lemma isEmpty_false s : isEmpty s = false ↔ s ≠ "".
Proof. unfold isEmpty. apply String.eqb_neq. Qed.

Lemma Contains_nonempty s sub : sub ≠ "" → strings.Contains s sub = true → s ≠ "".
Proof.
  intros Hsub H ->. simpl in H. destruct sub; [done | discriminate].
Qed.

Lemma isProduct_nonempty s : isProduct s = true → s ≠ "".
Proof. apply Contains_nonempty. discriminate. Qed.

Lemma keepFirst_fresh seen l x : x ∈ keepFirst seen l → (x ∉ seen) ∧ x ∈ l.
Proof.
  revert seen. induction l as [|y l IH]; intros seen; simpl.
  - intros H. by apply elem_of_nil in H.
  - case_bool_decide as Hy.
    + intros H. destruct (IH _ H). split; [done | by right].
    + rewrite elem_of_cons. intros [-> | H].
      * split; [done | by left].
      * destruct (IH _ H) as [Hn Hl]. split; [| by right].
        intros Hs. apply Hn. by right.
Qed.

Lemma keepFirst_NoDup seen l : NoDup (keepFirst seen l).
Proof.
  revert seen. induction l as [|y l IH]; intros seen; simpl.
  - constructor.
  - case_bool_decide as Hy; [apply IH |].
    constructor; [| apply IH].
    intros Hin. apply keepFirst_fresh in Hin as [Hn _]. apply Hn. by left.
Qed.

Lemma keepFirst_complete seen l x : x ∈ l → x ∉ seen → x ∈ keepFirst seen l.
Proof.
  revert seen. induction l as [|y l IH]; intros seen; simpl.
  - intros H. by apply elem_of_nil in H.
  - rewrite elem_of_cons. intros Hx Hs. case_bool_decide as Hy.
    + destruct Hx as [-> | Hx]; [done | by apply IH].
    + destruct (decide (x = y)) as [-> | Hne]; [by left |].
      right. destruct Hx as [-> | Hx]; [done |].
      apply IH; [done |]. rewrite elem_of_cons. intros [? | ?]; done.
Qed.

Lemma candidateLinks_NoDup found : NoDup (candidateLinks found).
Proof. apply keepFirst_NoDup. Qed.

Lemma candidateLinks_elem found x :
  x ∈ candidateLinks found ↔ x ∈ found ∧ x ≠ "".
Proof.
  unfold candidateLinks. split.
  - intros H. apply keepFirst_fresh in H as [_ H].
    by apply list_elem_of_filter in H as [? ?].
  - intros [H1 H2]. apply keepFirst_complete.
    + by apply list_elem_of_filter.
    + apply not_elem_of_nil.
Qed.

(** *** The accumulator *)

Lemma mapGet_insert m (k l : string) :
  mapGet (<[k := true]> m) l = true ↔ l = k ∨ mapGet m l = true.
Proof.
  unfold mapGet. destruct (decide (k = l)) as [-> | Hne].
  - rewrite lookup_insert_eq. simpl. split; auto.
  - rewrite lookup_insert_ne by done. split; [auto | intros [-> | ?]; done].
Qed.

(** Folding the closing block of the strategies over a stream of links
    appends to each class the new candidates of its kind, each at its
    first occurrence. *)
Lemma addLink_foldl seen st found :
  (∀ l, mapGet (linkMap st) l = true ↔ l ∈ seen) →
  let st' := foldl (λ st l, Webhook.addLink l st) st found in
  let new := keepFirst seen (filter (λ l, l ≠ "") found) in
  productLinks st' = productLinks st ++ filter (λ l, isProduct l = true) new ∧
  otherLinks st' = otherLinks st ++ filter (λ l, isProduct l = false) new.
Proof.
  revert seen st. induction found as [|x found IH]; intros seen st Hseen; simpl.
  - by rewrite !app_nil_r.
  - unfold Webhook.addLink at 2 4. destruct (isEmpty x) eqn:Hx; simpl.
    + apply isEmpty_true in Hx. rewrite filter_cons_False by (intros Hne; apply Hne, Hx).
      by apply IH.
    + apply isEmpty_false in Hx. rewrite filter_cons_True by done. simpl.
      destruct (mapGet (linkMap st) x) eqn:Hget; simpl.
      * apply Hseen in Hget. rewrite bool_decide_true by done. by apply IH.
      * assert (x ∉ seen) as Hfresh.
        { intros Hin. apply Hseen in Hin. congruence. }
        rewrite bool_decide_false by done.
        fold (isProduct x). destruct (isProduct x) eqn:Hp.
        -- edestruct (IH (x :: seen)) as [-> ->]; simpl.
           { intros l. rewrite mapGet_insert, elem_of_cons, Hseen. done. }
           rewrite filter_cons_True by done.
           rewrite filter_cons_False by (rewrite Hp; done).
           by rewrite <- app_assoc.
        -- edestruct (IH (x :: seen)) as [-> ->]; simpl.
           { intros l. rewrite mapGet_insert, elem_of_cons, Hseen. done. }
           rewrite filter_cons_False by (rewrite Hp; done).
           rewrite filter_cons_True by done.
           by rewrite <- app_assoc.
Qed.

(** A loop that offers a link for some of the elements it visits is the
    fold of the closing block over the links offered. *)
Lemma foldl_offer {A} (f : A → option string) (sel : list A) st :
  foldl (λ st s, match f s with Some l => Webhook.addLink l st | None => st end) st sel
  = foldl (λ st l, Webhook.addLink l st) st (omap f sel).
Proof.
  revert st. induction sel as [|s sel IH]; intros st; simpl; [done |].
  destruct (f s); simpl; apply IH.
Qed.

Lemma foldl_offer_ext {A} (g : Acc → A → Acc) (f : A → option string) sel st :
  (∀ st s, g st s = match f s with Some l => Webhook.addLink l st | None => st end) →
  foldl g st sel = foldl (λ st l, Webhook.addLink l st) st (omap f sel).
Proof.
  intros Hg. rewrite <- foldl_offer. revert st.
  induction sel as [|s sel IH]; intros st; simpl; [done |].
  by rewrite Hg, IH.
Qed.

(** *** The extractor *)

Section Extractor.
Context `{L : GoLib}.

Lemma scanAnchors_offers doc base phrase st :
  Webhook.scanAnchors doc base phrase st
  = foldl (λ st l, Webhook.addLink l st) st (anchorOffers doc base phrase).
Proof.
  unfold Webhook.scanAnchors, anchorOffers. apply foldl_offer_ext.
  intros st' s. unfold holdsPhrase.
  destruct (strings.Contains _ _); [| done].
  by destruct (goquery.Attr s "href").
Qed.

Lemma scanSelectors_offers doc base phrase st :
  Webhook.scanSelectors doc base phrase st
  = foldl (λ st l, Webhook.addLink l st) st (selectorOffers doc base phrase).
Proof.
  unfold Webhook.scanSelectors, selectorOffers, scanned.
  generalize Webhook.productSelectors. intros sels. revert st.
  induction sels as [|sel sels IH]; intros st; simpl; [done |].
  rewrite omap_app, foldl_app, IH. f_equal.
  apply foldl_offer_ext. intros st' s. unfold holdsPhrase.
  by destruct (strings.Contains _ _).
Qed.

Lemma scanAll_offers doc base phrase st :
  Webhook.scanAll doc base phrase st
  = foldl (λ st l, Webhook.addLink l st) st (directOffers doc base phrase).
Proof.
  unfold Webhook.scanAll, directOffers. apply foldl_offer_ext.
  intros st' s. unfold holdsPhrase.
  by destruct (strings.Contains _ _).
Qed.

(** The result of the extractor once the base URL has parsed and the
    short-circuit does not apply. *)
Lemma findLinksForText_scan doc baseURL base phrase :
  url_Parse baseURL = Some base →
  onProductPage doc baseURL phrase = false →
  let found := candidateLinks (discovered doc base phrase) in
  Webhook.findLinksForText doc baseURL phrase
  = if bool_decide (0 < length (filter (λ l, isProduct l = true) found))
    then filter (λ l, isProduct l = true) found
    else filter (λ l, isProduct l = false) found.
Proof.
  intros Hbase Hpage. unfold Webhook.findLinksForText.
  rewrite Hbase. unfold onProductPage, holdsPhrase in Hpage. rewrite Hpage.
  rewrite scanAll_offers, scanSelectors_offers, scanAnchors_offers.
  rewrite <- !foldl_app, <- ?app_assoc.
  destruct (addLink_foldl [] (mkAcc ∅ [] [])
              (anchorOffers doc base phrase ++ selectorOffers doc base phrase
                 ++ directOffers doc base phrase)) as [Hp Ho].
  { intros l. unfold mapGet. simpl. rewrite lookup_empty. simpl.
    split; [done | intros H; by apply elem_of_nil in H]. }
  simpl in Hp, Ho. rewrite Hp, Ho. done.
Qed.

Lemma findLinksForText_unparsed doc baseURL phrase :
  url_Parse baseURL = None → Webhook.findLinksForText doc baseURL phrase = [].
Proof. intros H. unfold Webhook.findLinksForText. by rewrite H. Qed.

Lemma findLinksForText_page doc baseURL base phrase :
  url_Parse baseURL = Some base →
  onProductPage doc baseURL phrase = true →
  Webhook.findLinksForText doc baseURL phrase = [baseURL].
Proof.
  intros Hbase Hpage. unfold Webhook.findLinksForText.
  rewrite Hbase. unfold onProductPage, holdsPhrase in Hpage. by rewrite Hpage.
Qed.

End Extractor.

(** *** Closest-link resolution *)

Lemma firstNonEmpty_cons x l :
  firstNonEmpty (x :: l) = if isEmpty x then firstNonEmpty l else x.
Proof. unfold firstNonEmpty. simpl. by destruct (isEmpty x). Qed.

Lemma firstNonEmpty_app l k :
  firstNonEmpty (l ++ k)
  = if isEmpty (firstNonEmpty l) then firstNonEmpty k else firstNonEmpty l.
Proof.
  induction l as [|x l IH]; [done |].
  simpl. rewrite !firstNonEmpty_cons. destruct (isEmpty x) eqn:Hx; [done |].
  by rewrite Hx.
Qed.

Lemma firstNonEmpty_elem l : firstNonEmpty l ≠ "" → firstNonEmpty l ∈ l.
Proof.
  induction l as [|x l IH]; [done |].
  rewrite firstNonEmpty_cons. destruct (isEmpty x); [| by left].
  intros H. right. by apply IH.
Qed.

Lemma firstNonEmpty_none l : firstNonEmpty l = "" ↔ ∀ x, x ∈ l → x = "".
Proof.
  induction l as [|x l IH].
  - split; [| done]. intros _ x H. by apply elem_of_nil in H.
  - rewrite firstNonEmpty_cons. destruct (isEmpty x) eqn:Hx.
    + apply isEmpty_true in Hx. rewrite IH. split.
      * intros H y. rewrite elem_of_cons. intros [-> | Hy]; [done | by apply H].
      * intros H y Hy. apply H. by right.
    + apply isEmpty_false in Hx. split; [done |].
      intros H. apply H. by left.
Qed.

(** A loop over a selection that stops assigning once [foundLink] is
    set returns the first non-empty link offered. *)
Lemma foldl_guard {A} (g : string → A → string) (h : A → string) sel :
  (∀ x, g "" x = h x) →
  (∀ acc x, isEmpty acc = false → g acc x = acc) →
  foldl g "" sel = firstNonEmpty (map h sel).
Proof.
  intros Hempty Hset.
  assert (∀ l acc, isEmpty acc = false → foldl g acc l = acc) as Hkeep.
  { induction l as [|x l IH]; intros acc Hacc; simpl; [done |].
    rewrite Hset by done. by apply IH. }
  induction sel as [|x sel IH]; simpl; [done |].
  rewrite Hempty, firstNonEmpty_cons. destruct (isEmpty (h x)) eqn:Hx.
  - apply isEmpty_true in Hx. rewrite Hx. apply IH.
  - by apply Hkeep.
Qed.

Lemma firstNonEmpty_omap {A} (f : A → option string) l :
  firstNonEmpty (map (λ x, default "" (f x)) l) = firstNonEmpty (omap f l).
Proof.
  induction l as [|x l IH]; simpl; [done |].
  rewrite firstNonEmpty_cons. destruct (f x) as [r|]; simpl.
  - by rewrite firstNonEmpty_cons, IH.
  - done.
Qed.

Lemma firstNonEmpty_flat_map {A} (F : A → list string) l :
  firstNonEmpty (map (λ x, firstNonEmpty (F x)) l) = firstNonEmpty (flat_map F l).
Proof.
  induction l as [|x l IH]; simpl; [done |].
  by rewrite firstNonEmpty_cons, firstNonEmpty_app, IH.
Qed.

Section ClosestLink.
Context `{L : GoLib}.

Lemma firstAnchor_fold (g : string → NodeRef → string) s base :
  (∀ l, g "" l = default "" (Webhook.resolveURL base <$> goquery.Attr l "href")) →
  foldl g "" (goquery.First (goquery.Find s "a"))
  = firstNonEmpty (firstAnchorLink s base).
Proof.
  intros Hg. unfold firstAnchorLink, goquery.First.
  destruct (goquery.Find s "a") as [|l sel]; simpl; [done |].
  rewrite Hg. destruct (goquery.Attr l "href") as [href|]; simpl; [| done].
  rewrite firstNonEmpty_cons.
  destruct (isEmpty (Webhook.resolveURL base href)) eqn:Hr; [| done].
  by apply isEmpty_true in Hr.
Qed.

(** [findClosestLink] is the chain of its steps: an anchor with an
    href answers for itself, whatever its href resolves to; any other
    element takes the first non-empty link of steps 2 to 4. *)
Lemma findClosestLink_chain s base :
  Webhook.findClosestLink s base
  = match selfLink s base with
    | Some r => r
    | None => firstNonEmpty (ancestorLinks s base ++ firstAnchorLink s base
                               ++ containerLinks s base)
    end.
Proof.
  unfold Webhook.findClosestLink, selfLink.
  destruct (goquery.Is s "a") eqn:Hself;
    [destruct (goquery.Attr s "href") as [href|]; simpl; [done |] |].
  all: rewrite !firstNonEmpty_app.
  all: rewrite (foldl_guard _ (λ p, default "" (selfLink p base)));
    [ | intros p; unfold selfLink; destruct (goquery.Is p "a");
        [by destruct (goquery.Attr p "href") | done]
      | by intros acc p -> ].
  all: rewrite firstNonEmpty_omap; fold (ancestorLinks s base).
  all: destruct (isEmpty (firstNonEmpty (ancestorLinks s base))) eqn:Hanc;
    simpl; [| done].
  all: apply isEmpty_true in Hanc; rewrite Hanc.
  all: rewrite (firstAnchor_fold _ s base);
    [ | intros l; by destruct (goquery.Attr l "href") ].
  all: destruct (isEmpty (firstNonEmpty (firstAnchorLink s base))) eqn:Hfst;
    simpl; [| done].
  all: apply isEmpty_true in Hfst; rewrite Hfst.
  all: unfold containerLinks; rewrite <- firstNonEmpty_flat_map.
  all: apply foldl_guard; [| by intros acc p ->].
  all: intros p; simpl; apply firstAnchor_fold.
  all: intros l; destruct (goquery.Attr l "href") as [href|]; simpl; [| done].
  all: by destruct (strings.Contains _ _).
Qed.

End ClosestLink.

(** *** The two programs share their core *)

Lemma Email_resolveURL `{L : GoLib} base href :
  Email.resolveURL base href = Webhook.resolveURL base href.
Proof. reflexivity. Qed.

Lemma Email_findClosestLink `{L : GoLib} s base :
  Email.findClosestLink s base = Webhook.findClosestLink s base.
Proof. reflexivity. Qed.

Lemma Email_findLinksForText `{L : GoLib} doc baseURL phrase :
  Email.findLinksForText doc baseURL phrase
  = Webhook.findLinksForText doc baseURL phrase.
Proof. reflexivity. Qed.

(** *** The pipeline *)

Lemma append_nil_l s : "" +:+ s = s.
Proof. reflexivity. Qed.

Lemma append_nil_r s : s +:+ "" = s.
Proof.
  induction s as [|c s IH]; [done |].
  change (String c (s +:+ "") = String c s). by rewrite IH.
Qed.

Lemma append_assoc s t u : (s +:+ t) +:+ u = s +:+ (t +:+ u).
Proof.
  induction s as [|c s IH]; [done |].
  change (String c ((s +:+ t) +:+ u) = String c (s +:+ (t +:+ u))).
  by rewrite IH.
Qed.

Lemma append_cons c s t : String c s +:+ t = String c (s +:+ t).
Proof. reflexivity. Qed.

Lemma prefix_nil s : String.prefix "" s = true.
Proof. by destruct s. Qed.

(** Writing the text of each body into the builder gives the text of
    the selection of bodies. *)
Lemma builder_Text sel acc :
  foldl (λ textContent s, textContent +:+ goquery.Text [s]) acc sel
  = acc +:+ goquery.Text sel.
Proof.
  revert acc. induction sel as [|s sel IH]; intros acc; simpl.
  - unfold goquery.Text. simpl. by rewrite append_nil_r.
  - rewrite IH. unfold goquery.Text. simpl.
    by rewrite append_nil_r, append_assoc.
Qed.

Lemma notifications_app t1 t2 :
  notifications (t1 ++ t2) = notifications t1 ++ notifications t2.
Proof. unfold notifications. apply omap_app. Qed.

Section Pipeline.
Context `{L : GoLib}.

Lemma findLinksForText_log_quiet url :
  notifications (Webhook.findLinksForText_log url) = [].
Proof. unfold Webhook.findLinksForText_log. by destruct (url_Parse url). Qed.

Lemma finalLinks_nonempty doc url text : finalLinks doc url text ≠ [].
Proof.
  unfold finalLinks. case_bool_decide as Hlen; [| done].
  intros Hnil. rewrite Hnil in Hlen. simpl in Hlen. lia.
Qed.

Lemma Webhook_cycle_match get config doc :
  reached get (Webhook.WebsiteURL config) doc →
  pageMatches doc (Webhook.SearchText config) = true →
  notifications (Webhook.checkWebsite get config)
  = [(Webhook.SearchText config,
      finalLinks doc (Webhook.WebsiteURL config) (Webhook.SearchText config))].
Proof.
  intros (resp & Hget & Hstatus & Hdoc) Hmatch.
  unfold Webhook.checkWebsite. rewrite Hget, Hstatus, Hdoc.
  rewrite bool_decide_false by (intros H; by apply H).
  rewrite builder_Text, append_nil_l.
  unfold pageMatches, holdsPhrase in Hmatch. rewrite Hmatch. simpl.
  rewrite notifications_app, findLinksForText_log_quiet. simpl.
  unfold finalLinks. by case_bool_decide.
Qed.

Lemma Webhook_cycle_nomatch get config doc :
  reached get (Webhook.WebsiteURL config) doc →
  pageMatches doc (Webhook.SearchText config) = false →
  Webhook.checkWebsite get config
  = [Printed "Checking website..."; Printed "No match found."].
Proof.
  intros (resp & Hget & Hstatus & Hdoc) Hmatch.
  unfold Webhook.checkWebsite. rewrite Hget, Hstatus, Hdoc.
  rewrite bool_decide_false by (intros H; by apply H).
  rewrite builder_Text, append_nil_l.
  unfold pageMatches, holdsPhrase in Hmatch. by rewrite Hmatch.
Qed.

Lemma Email_cycle_match get config doc :
  reached get (Email.WebsiteURL config) doc →
  pageMatches doc (Email.SearchText config) = true →
  notifications (Email.checkWebsite get config)
  = [(Email.SearchText config,
      finalLinks doc (Email.WebsiteURL config) (Email.SearchText config))].
Proof.
  intros (resp & Hget & Hstatus & Hdoc) Hmatch.
  unfold Email.checkWebsite. rewrite Hget, Hstatus, Hdoc.
  rewrite bool_decide_false by (intros H; by apply H).
  rewrite builder_Text, append_nil_l.
  unfold pageMatches, holdsPhrase in Hmatch. rewrite Hmatch. simpl.
  rewrite notifications_app. change (Email.findLinksForText_log ?u)
    with (Webhook.findLinksForText_log u).
  rewrite findLinksForText_log_quiet. simpl.
  unfold finalLinks. rewrite Email_findLinksForText. by case_bool_decide.
Qed.

(** Whatever the cycle meets, a call of the notifier carries links. *)
Lemma Webhook_notified_links get config t ls :
  (t, ls) ∈ notifications (Webhook.checkWebsite get config) → ls ≠ [].
Proof.
  unfold Webhook.checkWebsite.
  destruct (get _) as [resp|]; simpl; [| by intros Hin; apply elem_of_nil in Hin].
  case_bool_decide; simpl; [by intros Hin; apply elem_of_nil in Hin |].
  destruct (NewDocumentFromReader _) as [doc|]; simpl;
    [| by intros Hin; apply elem_of_nil in Hin].
  destruct (strings.Contains _ _); simpl; [| by intros Hin; apply elem_of_nil in Hin].
  rewrite notifications_app, findLinksForText_log_quiet. simpl.
  case_bool_decide as Hlen; simpl; rewrite list_elem_of_singleton;
    intros [= _ ->]; [| done].
  intros Hnil. rewrite Hnil in Hlen. simpl in Hlen. lia.
Qed.

Lemma Email_notified_links get config t ls :
  (t, ls) ∈ notifications (Email.checkWebsite get config) → ls ≠ [].
Proof.
  unfold Email.checkWebsite.
  destruct (get _) as [resp|]; simpl; [| by intros Hin; apply elem_of_nil in Hin].
  case_bool_decide; simpl; [by intros Hin; apply elem_of_nil in Hin |].
  destruct (NewDocumentFromReader _) as [doc|]; simpl;
    [| by intros Hin; apply elem_of_nil in Hin].
  destruct (strings.Contains _ _); simpl; [| by intros Hin; apply elem_of_nil in Hin].
  rewrite notifications_app. change (Email.findLinksForText_log ?u)
    with (Webhook.findLinksForText_log u).
  rewrite findLinksForText_log_quiet. simpl.
  case_bool_decide as Hlen; simpl; rewrite list_elem_of_singleton;
    intros [= _ ->]; [| done].
  intros Hnil. rewrite Hnil in Hlen. simpl in Hlen. lia.
Qed.

End Pipeline.

(** *** Selections as filters of the tree *)

Lemma Node_induction (P : Node → Prop) :
  (∀ ty data attr cs, Forall P cs → P (mkNode ty data attr cs)) → ∀ n, P n.
Proof.
  intros Hnode. fix IH 1. intros [ty data attr cs]. apply Hnode.
  induction cs as [|c cs IHcs]; constructor; [apply IH | exact IHcs].
Qed.

Lemma MatchAll_subtree m up n :
  MatchAll m up n = filter (λ r, Match m (ref_node r) = true) (subtree up n).
Proof.
  revert up. induction n as [ty data attr cs IH] using Node_induction.
  intros up. simpl.
  set (n := mkNode ty data attr cs).
  assert ((fix each (l : list Node) : Selection :=
             match l with
             | [] => []
             | c :: l' => MatchAll m (n :: up) c ++ each l'
             end) cs
          = filter (λ r, Match m (ref_node r) = true)
              ((fix each (l : list Node) : Selection :=
                  match l with
                  | [] => []
                  | c :: l' => subtree (n :: up) c ++ each l'
                  end) cs)) as ->.
  { clearbody n. induction IH as [|c cs Hc _ IHcs]; [done |].
    by rewrite filter_app, Hc, IHcs. }
  destruct (Match m n) eqn:Hm.
  - by rewrite filter_cons_True.
  - rewrite filter_cons_False; [done |]. simpl. by rewrite Hm.
Qed.

Lemma Find_below s selector :
  goquery.Find s selector
  = filter (λ r, Match (compileMatcher selector) (ref_node r) = true) (below s).
Proof.
  unfold goquery.Find, below.
  induction (Children (ref_node s)) as [|c cs IH]; simpl; [done |].
  rewrite filter_app, IH. f_equal.
  destruct (isElement c); [apply MatchAll_subtree | done].
Qed.

Lemma scanned_below doc r :
  r ∈ scanned doc ↔
  r ∈ below (goquery.root doc)
  ∧ (isHeading (ref_node r) = true
     ∨ attrContains (ref_node r) "class" "product" = true
     ∨ attrContains (ref_node r) "class" "item" = true
     ∨ attrContains (ref_node r) "id" "product" = true).
Proof.
  unfold scanned, Webhook.productSelectors. simpl.
  rewrite !elem_of_app, !Find_below, !list_elem_of_filter.
  change (compileMatcher "h1") with (MatchTag "h1").
  change (compileMatcher "h2") with (MatchTag "h2").
  change (compileMatcher "h3") with (MatchTag "h3").
  change (compileMatcher "[class*='product']") with (MatchAttrSubstr "class" "product").
  change (compileMatcher "[class*='item']") with (MatchAttrSubstr "class" "item").
  change (compileMatcher "[id*='product']") with (MatchAttrSubstr "id" "product").
  unfold isHeading, attrContains. simpl.
  destruct (isElement (ref_node r)); simpl;
    destruct (String.eqb (Data (ref_node r)) "h1");
    destruct (String.eqb (Data (ref_node r)) "h2");
    destruct (String.eqb (Data (ref_node r)) "h3"); simpl;
    rewrite elem_of_nil; intuition discriminate.
Qed.

Example listing_links :
  Webhook.findLinksForText (L := lib) Samples.listing "https://x.test" "in stock"
  = ["https://x.test/products/7"].
Proof. vm_compute. reflexivity. Qed.

Example listing_discovered :
  discovered (L := lib) Samples.listing Samples.base "in stock"
  = ["https://x.test/products/7"; "https://x.test/about";
     "https://x.test/products/7"; "https://x.test/products/7";
     "https://x.test/products/7"; "https://x.test/products/7";
     "https://x.test/about"].
Proof. vm_compute. reflexivity. Qed.

Example base_parsed : NetURL.Parse "https://x.test" = Some Samples.base.
Proof. vm_compute. reflexivity. Qed.

Example brokenAnchor_found :
  goquery.Find (goquery.root Samples.broken) "a" !! 1 = Some Samples.brokenAnchor.
Proof. vm_compute. reflexivity. Qed.

Example markedCard_found key :
  goquery.Find (goquery.root (Samples.marked key)) "div" = [Samples.markedCard key].
Proof. reflexivity. Qed.

Example end_to_end :
  Webhook.findLinksForText (L := lib)
    (Samples.page [Samples.elem "a" [mkAttr "href" "/products/7"]
                     [Samples.text "Blue Widget in stock"]])
    "https://x.test" "in stock"
  = ["https://x.test/products/7"].
Proof. vm_compute. reflexivity. Qed.

(** ** The claims of the specification *)

Lemma matchResult_links trace :
  (∀ t ls, (t, ls) ∈ notifications trace → ls ≠ []) →
  matched (matchResult trace) = true → links (matchResult trace) ≠ [].
Proof.
  intros Hall. unfold matchResult.
  destruct (notifications trace) as [|[t ls] rest]; simpl; [done |].
  intros _. apply (Hall t). by left.
Qed.

(** C1. Fallback law: in a cycle whose whole-page match succeeded while
    the Link Candidate Extractor returned the empty list, the notifier of
    either program is handed exactly the one-element list of the page's
    own URL; and no cycle at all yields a Match Result that is matched
    with zero links. *)
Theorem fallback_law `{L : GoLib} (get : Fetcher)
    (wc : Webhook.Config) (ec : Email.Config) (doc : goquery.Document) :
  Email.WebsiteURL ec = Webhook.WebsiteURL wc →
  Email.SearchText ec = Webhook.SearchText wc →
  reached get (Webhook.WebsiteURL wc) doc →
  pageMatches doc (Webhook.SearchText wc) = true →
  Webhook.findLinksForText doc (Webhook.WebsiteURL wc)
    (strings_ToLower (Webhook.SearchText wc)) = [] →
  matchResult (Webhook.checkWebsite get wc)
    = mkResult true [Webhook.WebsiteURL wc]
  ∧ matchResult (Email.checkWebsite get ec)
    = mkResult true [Webhook.WebsiteURL wc]
  ∧ (∀ get' wc', matched (matchResult (Webhook.checkWebsite get' wc')) = true →
                 links (matchResult (Webhook.checkWebsite get' wc')) ≠ [])
  ∧ (∀ get' ec', matched (matchResult (Email.checkWebsite get' ec')) = true →
                 links (matchResult (Email.checkWebsite get' ec')) ≠ []).
Proof.
  intros Hurl Htext Hreached Hmatch Hnone.
  assert (finalLinks doc (Webhook.WebsiteURL wc) (Webhook.SearchText wc)
          = [Webhook.WebsiteURL wc]) as Hfinal.
  { unfold finalLinks. by rewrite Hnone. }
  repeat split.
  - unfold matchResult. rewrite (Webhook_cycle_match get wc doc) by done.
    by rewrite Hfinal.
  - unfold matchResult. rewrite (Email_cycle_match get ec doc).
    + by rewrite Hurl, Htext, Hfinal.
    + by rewrite Hurl.
    + by rewrite Htext.
  - intros get' wc'. apply matchResult_links.
    intros t ls. apply Webhook_notified_links.
  - intros get' ec'. apply matchResult_links.
    intros t ls. apply Email_notified_links.
Qed.

Lemma fallback_law_witness :
  matchResult (Webhook.checkWebsite (L := lib) (Samples.serves "Blue Widget in stock")
                 (Samples.webhook "https://x.test/"))
    = mkResult true ["https://x.test/"]
  ∧ matchResult (Email.checkWebsite (L := lib) (Samples.serves "Blue Widget in stock")
                   (Samples.email "https://x.test/"))
    = mkResult true ["https://x.test/"]
  ∧ (∀ get' wc',
        matched (matchResult (Webhook.checkWebsite (L := lib) get' wc')) = true →
        links (matchResult (Webhook.checkWebsite (L := lib) get' wc')) ≠ [])
  ∧ (∀ get' ec',
        matched (matchResult (Email.checkWebsite (L := lib) get' ec')) = true →
        links (matchResult (Email.checkWebsite (L := lib) get' ec')) ≠ []).
Proof.
  apply (fallback_law (L := lib) (Samples.serves "Blue Widget in stock")
           (Samples.webhook "https://x.test/") (Samples.email "https://x.test/")
           (Samples.plain "Blue Widget in stock")).
  - reflexivity.
  - reflexivity.
  - exists (mkResponse 200 "Blue Widget in stock"). repeat split; reflexivity.
  - vm_compute. reflexivity.
  - vm_compute. reflexivity.
Defined.

(** C2. In a cycle whose case-insensitive test of the phrase against the
    body's full text fails, the result is "not matched" with no links and
    the notifier is not called. *)
Theorem no_match_no_notification `{L : GoLib} (get : Fetcher)
    (config : Webhook.Config) (doc : goquery.Document) :
  reached get (Webhook.WebsiteURL config) doc →
  strings.Contains
    (strings_ToLower (goquery.Text (goquery.Find (goquery.root doc) "body")))
    (strings_ToLower (Webhook.SearchText config)) = false →
  matchResult (Webhook.checkWebsite get config) = mkResult false []
  ∧ notifications (Webhook.checkWebsite get config) = [].
Proof.
  intros Hreached Htest.
  rewrite (Webhook_cycle_nomatch get config doc) by done. by split.
Qed.

Lemma no_match_no_notification_witness :
  matchResult (Webhook.checkWebsite (L := lib) (Samples.serves "Blue Widget sold out")
                 (Samples.webhook "https://x.test/"))
    = mkResult false []
  ∧ notifications (Webhook.checkWebsite (L := lib)
                     (Samples.serves "Blue Widget sold out")
                     (Samples.webhook "https://x.test/")) = [].
Proof.
  apply (no_match_no_notification (L := lib) (Samples.serves "Blue Widget sold out")
           (Samples.webhook "https://x.test/") (Samples.plain "Blue Widget sold out")).
  - exists (mkResponse 200 "Blue Widget sold out"). repeat split; reflexivity.
  - vm_compute. reflexivity.
Defined.

(** C10 (as stated, refuted). A cycle on a base URL that does not
    parse: [http.Get] returns the parse error, the cycle logs it and ends
    without calling the notifier. *)
Lemma unparsable_base_ends_at_fetch :
  @url_Parse lib "127.0.0.1:8080/products/42" = None
  ∧ Webhook.checkWebsite (L := lib)
      (httpGet (L := lib) (λ _, Some (mkResponse 200 "Blue Widget in stock")))
      (Samples.webhook "127.0.0.1:8080/products/42")
    = [Printed "Checking website..."; Logged "Error fetching website"]
  ∧ notifications
      (Webhook.checkWebsite (L := lib)
         (httpGet (L := lib) (λ _, Some (mkResponse 200 "Blue Widget in stock")))
         (Samples.webhook "127.0.0.1:8080/products/42")) = [].
Proof. vm_compute. repeat split; reflexivity. Qed.

(** C10 (amended). When the base URL string does not parse, the Link
    Candidate Extractor returns the empty list whatever the document
    holds; but a cycle never gets that far with such a string: the fetch
    fails on it, whatever the network would answer, the error is logged
    and the notifier is not called. *)
Theorem unparsable_base_never_notifies `{L : GoLib} (send : Fetcher)
    (config : Webhook.Config) :
  url_Parse (Webhook.WebsiteURL config) = None →
  (∀ doc phrase,
      Webhook.findLinksForText doc (Webhook.WebsiteURL config) phrase = [])
  ∧ Webhook.checkWebsite (httpGet send) config
    = [Printed "Checking website..."; Logged "Error fetching website"]
  ∧ notifications (Webhook.checkWebsite (httpGet send) config) = [].
Proof.
  intros Hparse.
  assert (Webhook.checkWebsite (httpGet send) config
          = [Printed "Checking website..."; Logged "Error fetching website"]) as Hend.
  { unfold Webhook.checkWebsite, httpGet. by rewrite Hparse. }
  split; [| split].
  - intros doc phrase. by apply findLinksForText_unparsed.
  - exact Hend.
  - by rewrite Hend.
Qed.

Lemma unparsable_base_never_notifies_witness :
  (∀ doc phrase,
      Webhook.findLinksForText (L := lib) doc "127.0.0.1:8080/products/42" phrase = [])
  ∧ Webhook.checkWebsite (L := lib)
      (httpGet (L := lib) (λ _, Some (mkResponse 200 "Blue Widget in stock")))
      (Samples.webhook "127.0.0.1:8080/products/42")
    = [Printed "Checking website..."; Logged "Error fetching website"]
  ∧ notifications
      (Webhook.checkWebsite (L := lib)
         (httpGet (L := lib) (λ _, Some (mkResponse 200 "Blue Widget in stock")))
         (Samples.webhook "127.0.0.1:8080/products/42")) = [].
Proof.
  apply (unparsable_base_never_notifies (L := lib)
           (λ _, Some (mkResponse 200 "Blue Widget in stock"))
           (Samples.webhook "127.0.0.1:8080/products/42")).
  vm_compute. reflexivity.
Defined.

(** The links returned are all of one class. *)
Lemma findLinksForText_one_class `{L : GoLib} doc baseURL phrase :
  (∀ x, x ∈ Webhook.findLinksForText doc baseURL phrase → isProduct x = true)
  ∨ (∀ x, x ∈ Webhook.findLinksForText doc baseURL phrase → isProduct x = false).
Proof.
  destruct (url_Parse baseURL) as [base|] eqn:Hbase.
  - destruct (onProductPage doc baseURL phrase) eqn:Hpage.
    + left. rewrite (findLinksForText_page doc baseURL base) by done.
      intros x Hx. apply list_elem_of_singleton in Hx as ->.
      unfold onProductPage in Hpage. by apply andb_prop in Hpage as [? _].
    + rewrite (findLinksForText_scan doc baseURL base) by done. simpl.
      case_bool_decide; [left | right]; intros x Hx;
        by apply list_elem_of_filter in Hx as [? _].
  - left. rewrite findLinksForText_unparsed by done.
    intros x Hx. by apply elem_of_nil in Hx.
Qed.

(** C3. The list the Link Candidate Extractor returns holds no URL
    twice; past the two early returns it is one class of the candidate
    links, which list every non-empty link discovered once, at the
    position of its first discovery, however many anchors or strategies
    lead to it. *)
Theorem extractor_no_duplicates `{L : GoLib} (doc : goquery.Document)
    (baseURL phrase : string) :
  NoDup (Webhook.findLinksForText doc baseURL phrase)
  ∧ match url_Parse baseURL with
    | None => Webhook.findLinksForText doc baseURL phrase = []
    | Some base =>
        if onProductPage doc baseURL phrase
        then Webhook.findLinksForText doc baseURL phrase = [baseURL]
        else
          (∃ class : bool,
              Webhook.findLinksForText doc baseURL phrase
              = filter (λ l, isProduct l = class)
                       (keepFirst [] (filter (λ l, l ≠ "")
                                             (discovered doc base phrase))))
          ∧ (∀ x, x ∈ keepFirst [] (filter (λ l, l ≠ "") (discovered doc base phrase))
                  ↔ x ∈ discovered doc base phrase ∧ x ≠ "")
    end.
Proof.
  destruct (url_Parse baseURL) as [base|] eqn:Hbase.
  - destruct (onProductPage doc baseURL phrase) eqn:Hpage.
    + rewrite (findLinksForText_page doc baseURL base) by done.
      split; [apply NoDup_singleton | done].
    + rewrite (findLinksForText_scan doc baseURL base) by done. simpl.
      split; [| split].
      * case_bool_decide; apply NoDup_filter, candidateLinks_NoDup.
      * case_bool_decide; [by exists true | by exists false].
      * intros x. apply candidateLinks_elem.
  - rewrite findLinksForText_unparsed by done. split; [constructor | done].
Qed.

(** C4. Past the two early returns the Link Candidate Extractor returns
    all product-classified links when there is one, and the
    other-classified links only otherwise; so in every result a
    product-class URL comes before any other-class URL. *)
Theorem product_links_first `{L : GoLib} (doc : goquery.Document)
    (baseURL phrase : string) :
  match url_Parse baseURL with
  | None => Webhook.findLinksForText doc baseURL phrase = []
  | Some base =>
      if onProductPage doc baseURL phrase
      then Webhook.findLinksForText doc baseURL phrase = [baseURL]
      else
        let found := candidateLinks (discovered doc base phrase) in
        let product := filter (λ l, isProduct l = true) found in
        let other := filter (λ l, isProduct l = false) found in
        (product ≠ [] → Webhook.findLinksForText doc baseURL phrase = product)
        ∧ (product = [] → Webhook.findLinksForText doc baseURL phrase = other)
  end
  ∧ (∀ i j x y,
        Webhook.findLinksForText doc baseURL phrase !! i = Some x →
        Webhook.findLinksForText doc baseURL phrase !! j = Some y →
        isProduct x = true → isProduct y = false → i < j).
Proof.
  split.
  - destruct (url_Parse baseURL) as [base|] eqn:Hbase.
    + destruct (onProductPage doc baseURL phrase) eqn:Hpage.
      * by apply (findLinksForText_page doc baseURL base).
      * rewrite (findLinksForText_scan doc baseURL base) by done. simpl.
        split; intros Hp.
        -- rewrite bool_decide_true; [done |].
           destruct (filter _ _); [done | simpl; lia].
        -- by rewrite Hp.
    + by apply findLinksForText_unparsed.
  - intros i j x y Hi Hj Hx Hy. exfalso.
    apply list_elem_of_lookup_2 in Hi, Hj.
    destruct (findLinksForText_one_class doc baseURL phrase) as [Hall | Hall].
    + apply Hall in Hj. congruence.
    + apply Hall in Hi. congruence.
Qed.

(** C5. Self-page short-circuit: for a base URL the program has
    fetched, which holds "/products/", and a phrase that occurs in the
    lower-cased text of the body, the Link Candidate Extractor returns
    exactly the base URL, whatever anchors the document has. *)
Theorem self_page_short_circuit `{L : GoLib} (send : Fetcher)
    (doc : goquery.Document) (baseURL phrase : string) :
  is_Some (httpGet send baseURL) →
  strings.Contains baseURL "/products/" = true →
  strings.Contains
    (strings_ToLower (goquery.Text (goquery.Find (goquery.root doc) "body")))
    phrase = true →
  Webhook.findLinksForText doc baseURL phrase = [baseURL].
Proof.
  intros Hfetched Hurl Hbody.
  destruct (url_Parse baseURL) as [base|] eqn:Hbase.
  - apply (findLinksForText_page doc baseURL base phrase Hbase).
    unfold onProductPage, holdsPhrase. by rewrite Hurl, Hbody.
  - unfold httpGet in Hfetched. rewrite Hbase in Hfetched.
    by destruct Hfetched.
Qed.

Lemma self_page_short_circuit_witness :
  Webhook.findLinksForText (L := lib) Samples.listing
    "https://x.test/products/42" "in stock"
  = ["https://x.test/products/42"].
Proof.
  apply (self_page_short_circuit (L := lib)
           (λ _, Some (mkResponse 200 "Blue Widget in stock")) Samples.listing
           "https://x.test/products/42" "in stock").
  - exists (mkResponse 200 "Blue Widget in stock"). vm_compute. reflexivity.
  - vm_compute. reflexivity.
  - vm_compute. reflexivity.
Defined.

(** C9. The link-extraction cores of the webhook program and of the
    email program return the same for every input: [resolveURL],
    [findClosestLink] and [findLinksForText] agree. *)
Theorem cores_agree `{L : GoLib} :
  (∀ base href, Email.resolveURL base href = Webhook.resolveURL base href)
  ∧ (∀ s base, Email.findClosestLink s base = Webhook.findClosestLink s base)
  ∧ (∀ doc baseURL searchTextLower,
        Email.findLinksForText doc baseURL searchTextLower
        = Webhook.findLinksForText doc baseURL searchTextLower).
Proof.
  split; [| split].
  - intros base href. unfold Email.resolveURL, Webhook.resolveURL.
    destruct (isEmpty href); [done |]. by destruct (url_Parse href).
  - intros s base. apply Email_findClosestLink.
  - intros doc baseURL searchTextLower. apply Email_findLinksForText.
Qed.

(** C7 (as stated, refuted). An anchor whose own href is empty: step 1
    answers with the empty resolution and the search ends there, although
    the later steps of the chain hold a link. *)
Lemma empty_href_ends_search :
  goquery.Find (goquery.root Samples.broken) "a" !! 1 = Some Samples.brokenAnchor
  ∧ selfLink (L := lib) Samples.brokenAnchor Samples.base = Some ""
  ∧ containerLinks (L := lib) Samples.brokenAnchor Samples.base
    = ["https://x.test/p/1"; "https://x.test/p/1"; "https://x.test/p/1"]
  ∧ closestLinkSkipping (L := lib) Samples.brokenAnchor Samples.base
    = "https://x.test/p/1"
  ∧ Webhook.findClosestLink (L := lib) Samples.brokenAnchor Samples.base = "".
Proof. vm_compute. repeat split; reflexivity. Qed.

(** C7 (amended). Closest-link resolution follows the fixed order of its
    steps, stopping at the first success: an element that is an anchor
    with an href answers with the resolution of that href at once, even
    an empty one; any other element takes the first non-empty resolution
    among its ancestor anchors (nearest first), then that of its first
    descendant anchor, then one of the first descendant anchors of its
    ancestors, an empty resolution being passed over in these steps.  In
    the last step the link is the nearest non-empty one whenever that one
    holds "/products/" or no ancestor offers a link that does; which link
    is taken when a nearer ancestor offers a link without "/products/"
    and a further one a link with it is not settled here. *)
Theorem closest_link_priority `{L : GoLib} (s : NodeRef) (base : URL) :
  match selfLink s base with
  | Some r => Webhook.findClosestLink s base = r
  | None =>
      if negb (isEmpty (firstNonEmpty (ancestorLinks s base)))
      then Webhook.findClosestLink s base = firstNonEmpty (ancestorLinks s base)
      else if negb (isEmpty (firstNonEmpty (firstAnchorLink s base)))
      then Webhook.findClosestLink s base
           = firstNonEmpty (firstAnchorLink s base)
      else
        ((Webhook.findClosestLink s base ∈ containerLinks s base
          ∧ Webhook.findClosestLink s base ≠ "")
         ∨ (Webhook.findClosestLink s base = ""
            ∧ ∀ x, x ∈ containerLinks s base → x = ""))
        ∧ (isProduct (firstNonEmpty (containerLinks s base)) = true
           ∨ (∀ x, x ∈ containerLinks s base → isProduct x = false) →
           Webhook.findClosestLink s base
           = firstNonEmpty (containerLinks s base))
  end.
Proof.
  rewrite findClosestLink_chain.
  destruct (selfLink s base) as [r|]; [done |].
  rewrite !firstNonEmpty_app.
  destruct (isEmpty (firstNonEmpty (ancestorLinks s base))); [| done].
  destruct (isEmpty (firstNonEmpty (firstAnchorLink s base))); [| done].
  cbn [negb]. split; [| done].
  destruct (isEmpty (firstNonEmpty (containerLinks s base))) eqn:Hempty.
  - right. apply isEmpty_true in Hempty. split; [done |].
    by apply firstNonEmpty_none.
  - left. apply isEmpty_false in Hempty. split; [| done].
    by apply firstNonEmpty_elem.
Qed.

(** The order at a container whose first anchor is found in the third
    step, and at a text under two containers that offer links of
    different classes, where the result is one of the two links. *)
Lemma closest_link_priority_witness :
  Webhook.findClosestLink (L := lib) (Samples.markedCard "class") Samples.base
  = "https://x.test/p/9"
  ∧ goquery.Find (goquery.root Samples.nestedPage) "p" !! 0
    = Some Samples.nestedText
  ∧ containerLinks (L := lib) Samples.nestedText Samples.base
    = ["https://x.test/other"; "https://x.test/products/1";
       "https://x.test/products/1"; "https://x.test/products/1"]
  ∧ ((Webhook.findClosestLink (L := lib) Samples.nestedText Samples.base
      ∈ containerLinks (L := lib) Samples.nestedText Samples.base
      ∧ Webhook.findClosestLink (L := lib) Samples.nestedText Samples.base ≠ "")
     ∨ (Webhook.findClosestLink (L := lib) Samples.nestedText Samples.base = ""
        ∧ ∀ x, x ∈ containerLinks (L := lib) Samples.nestedText Samples.base →
               x = "")).
Proof.
  split; [| split; [| split]].
  - exact (closest_link_priority (L := lib) (Samples.markedCard "class")
             Samples.base).
  - vm_compute. reflexivity.
  - vm_compute. reflexivity.
  - exact (proj1 (closest_link_priority (L := lib) Samples.nestedText
                    Samples.base)).
Defined.

(** C8 (as stated, refuted). A container whose id holds "item" and
    whose text holds the phrase: closest-link resolution finds a link for
    it, but the structural scan visits nothing in this document and the
    extractor returns no link; marked by class instead, the same
    container contributes its link. *)
Lemma id_item_not_scanned :
  goquery.Find (goquery.root (Samples.marked "id")) "div" = [Samples.markedCard "id"]
  ∧ attrContains (ref_node (Samples.markedCard "id")) "id" "item" = true
  ∧ holdsPhrase (L := lib) [Samples.markedCard "id"] "in stock" = true
  ∧ Webhook.findClosestLink (L := lib) (Samples.markedCard "id") Samples.base
    = "https://x.test/p/9"
  ∧ scanned (Samples.marked "id") = []
  ∧ Webhook.findLinksForText (L := lib) (Samples.marked "id")
      "https://x.test" "in stock" = []
  ∧ Webhook.findLinksForText (L := lib) (Samples.marked "class")
      "https://x.test" "in stock" = ["https://x.test/p/9"].
Proof. vm_compute. repeat split; reflexivity. Qed.

(** C8 (amended). The structural scan visits exactly the elements
    reached by the six selectors: headings of level 1 to 3, elements
    whose class holds "product" or "item", and elements whose id holds
    "product"; each visited element whose text holds the phrase offers
    its closest link. *)
Theorem structural_scan_selectors `{L : GoLib} (doc : goquery.Document) :
  (∀ r, r ∈ scanned doc ↔
        r ∈ below (goquery.root doc)
        ∧ (isHeading (ref_node r) = true
           ∨ attrContains (ref_node r) "class" "product" = true
           ∨ attrContains (ref_node r) "class" "item" = true
           ∨ attrContains (ref_node r) "id" "product" = true))
  ∧ (∀ base phrase st,
        Webhook.scanSelectors doc base phrase st
        = foldl (λ st l, Webhook.addLink l st) st
            (omap (λ s, if holdsPhrase [s] phrase
                        then Some (Webhook.findClosestLink s base)
                        else None)
                  (scanned doc))).
Proof.
  split.
  - intros r. apply scanned_below.
  - intros base phrase st. apply scanSelectors_offers.
Qed.

(** *** The URL Resolver on URL texts *)


Lemma allBytes_impl (f g : ascii → bool) s :
  (∀ c, f c = true → g c = true) → allBytes f s = true → allBytes g s = true.
Proof.
  intros Hfg. induction s as [|c s IH]; [done |].
  cbn [allBytes]. rewrite !andb_true_iff. intros [Hc Hs]. auto.
Qed.
















Ltac byte_cases :=
  let c := fresh "c" in
  intros c; destruct c as [[] [] [] [] [] [] [] []]; vm_compute; done.

Lemma letter_plain : ∀ c, NetURL.isLetter c = true → plainByte c = true.
Proof. byte_cases. Qed.





Lemma okPart_allBytes (f g : ascii → bool) o :
  (∀ c, f c = true → g c = true) → okPart f o = true →
  allBytes g (match o with Some x => x | None => "" end) = true.
Proof.
  intros Hfg. destruct o as [x|]; [| done]. cbn [okPart].
  rewrite andb_true_iff. intros [_ Hx]. by apply (allBytes_impl f).
Qed.
































(** ** Further properties of the programs *)

(** *** Configuration *)

Lemma Getenv_insert env key v k :
  Getenv (<[key := v]> env) k = if decide (key = k) then v else Getenv env k.
Proof.
  unfold Getenv. rewrite lookup_insert. by destruct (decide (key = k)).
Qed.

Lemma getEnv_insert env key v k d :
  key ≠ k → Webhook.getEnv (<[key := v]> env) k d = Webhook.getEnv env k d.
Proof.
  intros Hne. unfold Webhook.getEnv. rewrite Getenv_insert.
  by destruct (decide (key = k)).
Qed.

Lemma getEnv_unset env key d :
  env !! key = None ∨ env !! key = Some "" → Webhook.getEnv env key d = d.
Proof.
  intros Hkey. unfold Webhook.getEnv, Getenv. by destruct Hkey as [-> | ->].
Qed.

Lemma getEnv_set env key d v :
  env !! key = Some v → v ≠ "" → Webhook.getEnv env key d = v.
Proof.
  intros Hkey Hv. unfold Webhook.getEnv, Getenv. rewrite Hkey. simpl.
  apply isEmpty_false in Hv. by rewrite Hv.
Qed.

Lemma getEnv_required env key :
  Webhook.getEnv env key "" = Getenv env key.
Proof.
  unfold Webhook.getEnv. destruct (isEmpty (Getenv env key)) eqn:Hv; [| done].
  apply isEmpty_true in Hv. by rewrite Hv.
Qed.

(** X1. [getEnv] treats a variable that is set to the empty string like
    one that is not set: both give the default value; a variable set to
    anything else gives its value; so the result is empty only if the
    default is.  The two programs have the same [getEnv]. *)
Theorem getEnv_empty_is_unset (env : Environ) (key defaultValue : string) :
  (env !! key = None ∨ env !! key = Some "" →
   Webhook.getEnv env key defaultValue = defaultValue)
  ∧ (∀ v, env !! key = Some v → v ≠ "" → Webhook.getEnv env key defaultValue = v)
  ∧ (Webhook.getEnv env key defaultValue = "" → defaultValue = "")
  ∧ Email.getEnv env key defaultValue = Webhook.getEnv env key defaultValue.
Proof.
  split; [apply getEnv_unset |]. split; [intros v; apply getEnv_set |].
  split; [| reflexivity].
  unfold Webhook.getEnv. destruct (isEmpty (Getenv env key)) eqn:Hv; simpl; [done |].
  intros Hempty. apply isEmpty_false in Hv. done.
Qed.


(** X2. A configuration the webhook program loads holds the values of
    the environment: its three required fields are the variables as they
    are set, none of them empty, and its interval is what
    [time.ParseDuration] reads in [CHECK_INTERVAL], or in "5m". *)
Theorem loadConfig_loaded `{H : ConfigLib} (env : Environ) (c : Webhook.Config) :
  Webhook.loadConfig env = Loaded c →
  (env !! "WEBSITE_URL" = Some (Webhook.WebsiteURL c) ∧ Webhook.WebsiteURL c ≠ "")
  ∧ (env !! "SEARCH_TEXT" = Some (Webhook.SearchText c) ∧ Webhook.SearchText c ≠ "")
  ∧ (env !! "DISCORD_WEBHOOK" = Some (Webhook.DiscordWebhook c)
     ∧ Webhook.DiscordWebhook c ≠ "")
  ∧ time_ParseDuration (Webhook.getEnv env "CHECK_INTERVAL" "5m")
    = Some (Webhook.CheckInterval c).
Proof.
  unfold Webhook.loadConfig. rewrite !getEnv_required.
  assert (∀ key, isEmpty (Getenv env key) = false →
                 env !! key = Some (Getenv env key) ∧ Getenv env key ≠ "") as Hset.
  { intros key Hkey. apply isEmpty_false in Hkey. split; [| done].
    unfold Getenv in *. by destruct (env !! key). }
  destruct (isEmpty (Getenv env "WEBSITE_URL")) eqn:Hw; [done |].
  destruct (isEmpty (Getenv env "SEARCH_TEXT")) eqn:Hs; [done |].
  destruct (isEmpty (Getenv env "DISCORD_WEBHOOK")) eqn:Hd; [done |].
  destruct (time_ParseDuration _) as [interval|] eqn:Hi; [| done].
  intros [= <-]. simpl. auto.
Qed.

Lemma loadConfig_loaded_witness :
  (webhookEnv !! "WEBSITE_URL" = Some "https://x.test/" ∧ "https://x.test/" ≠ "")
  ∧ (webhookEnv !! "SEARCH_TEXT" = Some "In Stock" ∧ "In Stock" ≠ "")
  ∧ (webhookEnv !! "DISCORD_WEBHOOK" = Some "https://discord.test/hook"
     ∧ "https://discord.test/hook" ≠ "")
  ∧ time_ParseDuration (Webhook.getEnv webhookEnv "CHECK_INTERVAL" "5m")
    = Some 300000000000%Z.
Proof.
  apply (loadConfig_loaded (H := configLib) webhookEnv
           (Webhook.mkConfig "https://x.test/" "In Stock"
                             "https://discord.test/hook" 300000000000)).
  vm_compute. reflexivity.
Defined.

(** X3. The webhook program checks its settings in a fixed order and
    stops at the first that fails: a missing or empty [WEBSITE_URL], then
    [SEARCH_TEXT], then [DISCORD_WEBHOOK], then an interval that does not
    parse; when none fails the configuration is loaded. *)
Theorem loadConfig_first_failure `{H : ConfigLib} (env : Environ) :
  (Getenv env "WEBSITE_URL" = "" →
   Webhook.loadConfig env = Fatal "WEBSITE_URL environment variable is required")
  ∧ (Getenv env "WEBSITE_URL" ≠ "" → Getenv env "SEARCH_TEXT" = "" →
     Webhook.loadConfig env = Fatal "SEARCH_TEXT environment variable is required")
  ∧ (Getenv env "WEBSITE_URL" ≠ "" → Getenv env "SEARCH_TEXT" ≠ "" →
     Getenv env "DISCORD_WEBHOOK" = "" →
     Webhook.loadConfig env = Fatal "DISCORD_WEBHOOK environment variable is required")
  ∧ (Getenv env "WEBSITE_URL" ≠ "" → Getenv env "SEARCH_TEXT" ≠ "" →
     Getenv env "DISCORD_WEBHOOK" ≠ "" →
     match time_ParseDuration (Webhook.getEnv env "CHECK_INTERVAL" "5m") with
     | None => Webhook.loadConfig env = Fatal "Invalid CHECK_INTERVAL format"
     | Some interval =>
         Webhook.loadConfig env
         = Loaded (Webhook.mkConfig (Getenv env "WEBSITE_URL")
                     (Getenv env "SEARCH_TEXT") (Getenv env "DISCORD_WEBHOOK")
                     interval)
     end).
Proof.
  unfold Webhook.loadConfig. rewrite !getEnv_required.
  repeat split.
  - by intros ->.
  - intros Hw ->. apply isEmpty_false in Hw. by rewrite Hw.
  - intros Hw Hs ->. apply isEmpty_false in Hw, Hs. by rewrite Hw, Hs.
  - intros Hw Hs Hd. apply isEmpty_false in Hw, Hs, Hd. rewrite Hw, Hs, Hd.
    by destruct (time_ParseDuration _).
Qed.

(** X4. Leaving [CHECK_INTERVAL] unset, or setting it to the empty
    string, is the same as setting it to "5m", in both programs. *)
Theorem loadConfig_default_interval `{H : ConfigLib} (env : Environ) :
  env !! "CHECK_INTERVAL" = None ∨ env !! "CHECK_INTERVAL" = Some "" →
  Webhook.loadConfig env = Webhook.loadConfig (<["CHECK_INTERVAL" := "5m"]> env)
  ∧ Email.loadConfig env = Email.loadConfig (<["CHECK_INTERVAL" := "5m"]> env).
Proof.
  intros Hunset.
  assert (Webhook.getEnv (<["CHECK_INTERVAL" := "5m"]> env) "CHECK_INTERVAL" "5m"
          = Webhook.getEnv env "CHECK_INTERVAL" "5m") as Hsame.
  { rewrite (getEnv_unset env) by done.
    apply getEnv_set; [apply lookup_insert_eq | done]. }
  split.
  - unfold Webhook.loadConfig. rewrite Hsame.
    by rewrite !(getEnv_insert env "CHECK_INTERVAL") by done.
  - unfold Email.loadConfig.
    change Email.getEnv with Webhook.getEnv. rewrite Hsame.
    by rewrite !(getEnv_insert env "CHECK_INTERVAL") by done.
Qed.

Lemma loadConfig_default_interval_witness :
  Webhook.loadConfig (H := configLib) webhookEnv
  = Webhook.loadConfig (H := configLib) (<["CHECK_INTERVAL" := "5m"]> webhookEnv)
  ∧ Email.loadConfig (H := configLib) webhookEnv
    = Email.loadConfig (H := configLib) (<["CHECK_INTERVAL" := "5m"]> webhookEnv).
Proof.
  apply (loadConfig_default_interval (H := configLib) webhookEnv).
  left. vm_compute. reflexivity.
Defined.

(** X5. The webhook program reads four variables and no other: setting
    any other variable, to any value, changes nothing of what
    [loadConfig] returns. *)
Theorem loadConfig_reads_four `{H : ConfigLib} (env : Environ) (key v : string) :
  key ∉ ["WEBSITE_URL"; "SEARCH_TEXT"; "DISCORD_WEBHOOK"; "CHECK_INTERVAL"] →
  Webhook.loadConfig (<[key := v]> env) = Webhook.loadConfig env.
Proof.
  intros Hkey. unfold Webhook.loadConfig.
  rewrite !(getEnv_insert env key); [done | ..];
    intros ->; apply Hkey; set_solver.
Qed.

Lemma loadConfig_reads_four_witness :
  Webhook.loadConfig (H := configLib) (<["SMTP_HOST" := "smtp.x.test"]> webhookEnv)
  = Webhook.loadConfig (H := configLib) webhookEnv.
Proof.
  apply (loadConfig_reads_four (H := configLib) webhookEnv "SMTP_HOST" "smtp.x.test").
  compute_done.
Defined.

Lemma Getenv_set env key :
  Getenv env key ≠ "" → env !! key = Some (Getenv env key).
Proof. unfold Getenv. by destruct (env !! key). Qed.

(** X6. A configuration the email program loads holds the values of the
    environment: the five required fields are the variables as they are
    set, none of them empty; user name and password are taken as they
    are, empty when not set; the port is what [strconv.Atoi] reads in
    [SMTP_PORT], or in "587", and the interval what [time.ParseDuration]
    reads in [CHECK_INTERVAL], or in "5m". *)
Theorem Email_loadConfig_loaded `{H : ConfigLib} (env : Environ) (c : Email.Config) :
  Email.loadConfig env = Loaded c →
  (env !! "WEBSITE_URL" = Some (Email.WebsiteURL c) ∧ Email.WebsiteURL c ≠ "")
  ∧ (env !! "SEARCH_TEXT" = Some (Email.SearchText c) ∧ Email.SearchText c ≠ "")
  ∧ (env !! "SMTP_HOST" = Some (Email.SMTPHost c) ∧ Email.SMTPHost c ≠ "")
  ∧ (env !! "EMAIL_FROM" = Some (Email.EmailFrom c) ∧ Email.EmailFrom c ≠ "")
  ∧ (env !! "EMAIL_TO" = Some (Email.EmailTo c) ∧ Email.EmailTo c ≠ "")
  ∧ Email.SMTPUsername c = Getenv env "SMTP_USERNAME"
  ∧ Email.SMTPPassword c = Getenv env "SMTP_PASSWORD"
  ∧ strconv_Atoi (Email.getEnv env "SMTP_PORT" "587") = Some (Email.SMTPPort c)
  ∧ time_ParseDuration (Email.getEnv env "CHECK_INTERVAL" "5m")
    = Some (Email.CheckInterval c).
Proof.
  unfold Email.loadConfig. change Email.getEnv with Webhook.getEnv.
  rewrite !getEnv_required.
  destruct (isEmpty (Getenv env "WEBSITE_URL")) eqn:Hw; [done |].
  destruct (isEmpty (Getenv env "SEARCH_TEXT")) eqn:Hs; [done |].
  destruct (isEmpty (Getenv env "SMTP_HOST")) eqn:Hh; [done |].
  destruct (isEmpty (Getenv env "EMAIL_FROM")) eqn:Hf; [done |].
  destruct (isEmpty (Getenv env "EMAIL_TO")) eqn:Ht; [done |].
  destruct (strconv_Atoi _) as [port|] eqn:Hp; [| done].
  destruct (time_ParseDuration _) as [interval|] eqn:Hi; [| done].
  apply isEmpty_false in Hw, Hs, Hh, Hf, Ht.
  intros [= <-]. simpl. repeat split; auto using Getenv_set.
Qed.

Lemma Email_loadConfig_loaded_witness :
  (emailEnv !! "WEBSITE_URL" = Some "https://x.test/" ∧ "https://x.test/" ≠ "")
  ∧ (emailEnv !! "SEARCH_TEXT" = Some "In Stock" ∧ "In Stock" ≠ "")
  ∧ (emailEnv !! "SMTP_HOST" = Some "smtp.x.test" ∧ "smtp.x.test" ≠ "")
  ∧ (emailEnv !! "EMAIL_FROM" = Some "from@x.test" ∧ "from@x.test" ≠ "")
  ∧ (emailEnv !! "EMAIL_TO" = Some "to@x.test" ∧ "to@x.test" ≠ "")
  ∧ "" = Getenv emailEnv "SMTP_USERNAME"
  ∧ "" = Getenv emailEnv "SMTP_PASSWORD"
  ∧ strconv_Atoi (Email.getEnv emailEnv "SMTP_PORT" "587") = Some 587%Z
  ∧ time_ParseDuration (Email.getEnv emailEnv "CHECK_INTERVAL" "5m")
    = Some 300000000000%Z.
Proof.
  apply (Email_loadConfig_loaded (H := configLib) emailEnv
           (Email.mkConfig "https://x.test/" "In Stock" "smtp.x.test" 587 "" ""
                           "from@x.test" "to@x.test" 300000000000)).
  vm_compute. reflexivity.
Defined.

(** X7. The email program loads its configuration exactly when the five
    required variables are set and not empty and both the port and the
    interval parse; user name and password are not required. *)
Theorem Email_loadConfig_loads_iff `{H : ConfigLib} (env : Environ) :
  (∃ c, Email.loadConfig env = Loaded c) ↔
  Getenv env "WEBSITE_URL" ≠ "" ∧ Getenv env "SEARCH_TEXT" ≠ ""
  ∧ Getenv env "SMTP_HOST" ≠ "" ∧ Getenv env "EMAIL_FROM" ≠ ""
  ∧ Getenv env "EMAIL_TO" ≠ ""
  ∧ is_Some (strconv_Atoi (Email.getEnv env "SMTP_PORT" "587"))
  ∧ is_Some (time_ParseDuration (Email.getEnv env "CHECK_INTERVAL" "5m")).
Proof.
  unfold Email.loadConfig. change Email.getEnv with Webhook.getEnv.
  rewrite !getEnv_required.
  rewrite <- !isEmpty_false.
  destruct (isEmpty (Getenv env "WEBSITE_URL"));
    [split; [intros [c [=]] | intros [[=] _]] |].
  destruct (isEmpty (Getenv env "SEARCH_TEXT"));
    [split; [intros [c [=]] | intros (_ & [=] & _)] |].
  destruct (isEmpty (Getenv env "SMTP_HOST"));
    [split; [intros [c [=]] | intros (_ & _ & [=] & _)] |].
  destruct (isEmpty (Getenv env "EMAIL_FROM"));
    [split; [intros [c [=]] | intros (_ & _ & _ & [=] & _)] |].
  destruct (isEmpty (Getenv env "EMAIL_TO"));
    [split; [intros [c [=]] | intros (_ & _ & _ & _ & [=] & _)] |].
  destruct (strconv_Atoi _) as [port|];
    [| split; [intros [c [=]] | intros (_ & _ & _ & _ & _ & [? [=]] & _)]].
  destruct (time_ParseDuration _) as [interval|];
    [| split; [intros [c [=]] | intros (_ & _ & _ & _ & _ & _ & [? [=]])]].
  split; [intros _; repeat split; eauto | intros _; eauto].
Qed.

(** X8. Leaving [SMTP_PORT] unset, or setting it to the empty string,
    is the same as setting it to "587". *)
Theorem Email_loadConfig_default_port `{H : ConfigLib} (env : Environ) :
  env !! "SMTP_PORT" = None ∨ env !! "SMTP_PORT" = Some "" →
  Email.loadConfig env = Email.loadConfig (<["SMTP_PORT" := "587"]> env).
Proof.
  intros Hunset.
  assert (Webhook.getEnv (<["SMTP_PORT" := "587"]> env) "SMTP_PORT" "587"
          = Webhook.getEnv env "SMTP_PORT" "587") as Hsame.
  { rewrite (getEnv_unset env) by done.
    apply getEnv_set; [apply lookup_insert_eq | done]. }
  unfold Email.loadConfig. change Email.getEnv with Webhook.getEnv.
  rewrite Hsame. by rewrite !(getEnv_insert env "SMTP_PORT") by done.
Qed.

Lemma Email_loadConfig_default_port_witness :
  Email.loadConfig (H := configLib) emailEnv
  = Email.loadConfig (H := configLib) (<["SMTP_PORT" := "587"]> emailEnv).
Proof.
  apply (Email_loadConfig_default_port (H := configLib) emailEnv).
  left. vm_compute. reflexivity.
Defined.

(** *** The cycle *)

(** A cycle either does not notify, and then did not get to a page that
    holds the phrase, or it notifies once, with the final links. *)
Lemma Webhook_cycle_cases `{L : GoLib} (get : Fetcher) (config : Webhook.Config) :
  (notifications (Webhook.checkWebsite get config) = []
   ∧ ¬ ∃ doc, reached get (Webhook.WebsiteURL config) doc
              ∧ pageMatches doc (Webhook.SearchText config) = true)
  ∨ (∃ doc, reached get (Webhook.WebsiteURL config) doc
            ∧ pageMatches doc (Webhook.SearchText config) = true
            ∧ notifications (Webhook.checkWebsite get config)
              = [(Webhook.SearchText config,
                  finalLinks doc (Webhook.WebsiteURL config)
                             (Webhook.SearchText config))]).
Proof.
  destruct (get (Webhook.WebsiteURL config)) as [resp|] eqn:Hget.
  2: { left. unfold Webhook.checkWebsite. rewrite Hget. simpl.
       split; [done |]. intros (doc & (resp & Hresp & _) & _). congruence. }
  destruct (decide (StatusCode resp = StatusOK)) as [Hstatus | Hstatus].
  2: { left. unfold Webhook.checkWebsite. rewrite Hget.
       rewrite bool_decide_true by done. simpl.
       split; [done |]. intros (doc & (resp' & Hresp & Hok & _) & _). congruence. }
  destruct (NewDocumentFromReader (Body resp)) as [doc|] eqn:Hdoc.
  2: { left. unfold Webhook.checkWebsite. rewrite Hget, Hdoc.
       rewrite bool_decide_false by (intros Hne; by apply Hne). simpl.
       split; [done |].
       intros (doc & (resp' & Hresp & _ & Hparsed) & _). congruence. }
  assert (reached get (Webhook.WebsiteURL config) doc) as Hreached by (by exists resp).
  destruct (pageMatches doc (Webhook.SearchText config)) eqn:Hmatch.
  - right. exists doc. split; [done |]. split; [done |].
    by apply Webhook_cycle_match.
  - left. rewrite (Webhook_cycle_nomatch get config doc) by done. simpl.
    split; [done |].
    intros (doc' & (resp' & Hresp & _ & Hparsed) & Hmatch').
    assert (resp' = resp) as -> by congruence.
    assert (doc' = doc) as -> by congruence. congruence.
Qed.

(** X9. A cycle of the webhook program calls the notifier at most once,
    always with the search text as configured (not lower-cased), and it
    calls it exactly when the page was fetched with status 200, parsed,
    and holds the phrase: a transport error, another status, a parse
    error or a page without the phrase never notify. *)
Theorem cycle_notifies_once `{L : GoLib} (get : Fetcher) (config : Webhook.Config) :
  length (notifications (Webhook.checkWebsite get config)) <= 1
  ∧ (∀ t ls, (t, ls) ∈ notifications (Webhook.checkWebsite get config) →
             t = Webhook.SearchText config)
  ∧ (notifications (Webhook.checkWebsite get config) ≠ [] ↔
     ∃ doc, reached get (Webhook.WebsiteURL config) doc
            ∧ pageMatches doc (Webhook.SearchText config) = true).
Proof.
  destruct (Webhook_cycle_cases get config)
    as [[Hnone Hnot] | (doc & Hreached & Hmatch & Hone)].
  - rewrite Hnone. simpl. split; [lia |].
    split; [by intros t ls Hin; apply elem_of_nil in Hin |]. by split.
  - rewrite Hone. simpl. split; [lia |]. split.
    + intros t ls Hin. by apply list_elem_of_singleton in Hin as [= -> _].
    + split; [by exists doc | done].
Qed.

(** A link the extractor returns is not the empty string. *)
Lemma findLinksForText_not_empty `{L : GoLib} doc baseURL phrase x :
  x ∈ Webhook.findLinksForText doc baseURL phrase → x ≠ "".
Proof.
  destruct (url_Parse baseURL) as [base|] eqn:Hbase.
  - destruct (onProductPage doc baseURL phrase) eqn:Hpage.
    + rewrite (findLinksForText_page doc baseURL base) by done.
      intros Hx. apply list_elem_of_singleton in Hx as ->.
      unfold onProductPage in Hpage. apply andb_prop in Hpage as [Hurl _].
      by apply isProduct_nonempty.
    + rewrite (findLinksForText_scan doc baseURL base) by done. simpl.
      case_bool_decide; intros Hx; apply list_elem_of_filter in Hx as [_ Hx];
        by apply candidateLinks_elem in Hx as [_ ?].
  - rewrite findLinksForText_unparsed by done.
    intros Hx. by apply elem_of_nil in Hx.
Qed.

(** The links handed to the notifier are not empty when the configured
    URL is not. *)
Lemma Webhook_notified_not_empty `{L : GoLib} get config t ls x :
  Webhook.WebsiteURL config ≠ "" →
  (t, ls) ∈ notifications (Webhook.checkWebsite get config) →
  x ∈ ls → x ≠ "".
Proof.
  intros Hurl Hin Hx.
  destruct (Webhook_cycle_cases get config)
    as [[Hnone _] | (doc' & Hreached & Hmatch & Hone)].
  { rewrite Hnone in Hin. by apply elem_of_nil in Hin. }
  rewrite Hone in Hin. apply list_elem_of_singleton in Hin as [= _ ->].
  unfold finalLinks in Hx. case_bool_decide.
  - by apply findLinksForText_not_empty in Hx.
  - by apply list_elem_of_singleton in Hx as ->.
Qed.

(** X10. No link the Link Candidate Extractor returns is the empty
    string, whatever the document, the base URL and the phrase; so the
    links a cycle hands to the notifier are not empty either as long as
    the configured URL is not. *)
Theorem links_never_empty `{L : GoLib} (doc : goquery.Document)
    (baseURL phrase : string) :
  (∀ x, x ∈ Webhook.findLinksForText doc baseURL phrase → x ≠ "")
  ∧ (∀ get config t ls x,
        Webhook.WebsiteURL config ≠ "" →
        (t, ls) ∈ notifications (Webhook.checkWebsite get config) →
        x ∈ ls → x ≠ "").
Proof.
  split; [intros x; apply findLinksForText_not_empty |].
  intros get config t ls x. apply Webhook_notified_not_empty.
Qed.

(** *** Where the links come from *)

Lemma elem_of_flat_map {A B} (f : A → list B) (l : list A) (x : B) :
  x ∈ flat_map f l ↔ ∃ y, y ∈ l ∧ x ∈ f y.
Proof.
  induction l as [|a l IH]; simpl.
  - split; [intros Hx; by apply elem_of_nil in Hx |].
    intros (y & Hy & _). by apply elem_of_nil in Hy.
  - rewrite elem_of_app, IH. split.
    + intros [Hx | (y & Hy & Hx)]; [exists a | exists y]; split; auto; by constructor.
    + intros (y & Hy & Hx). apply elem_of_cons in Hy as [-> | Hy]; eauto.
Qed.

Lemma subtree_unfold up n :
  subtree up n = mkRef n up :: flat_map (subtree (n :: up)) (Children n).
Proof.
  destruct n as [ty data attr cs]. reflexivity.
Qed.

Lemma nodesOf_unfold n : nodesOf n = n :: flat_map nodesOf (Children n).
Proof.
  destruct n as [ty data attr cs]. reflexivity.
Qed.

Lemma nodesOf_self n : n ∈ nodesOf n.
Proof. rewrite nodesOf_unfold. by left. Qed.

Lemma nodesOf_child n c x : c ∈ Children n → x ∈ nodesOf c → x ∈ nodesOf n.
Proof.
  intros Hc Hx. rewrite nodesOf_unfold. right.
  apply elem_of_flat_map. eauto.
Qed.

Lemma nodesOf_trans n m x : m ∈ nodesOf n → x ∈ nodesOf m → x ∈ nodesOf n.
Proof.
  revert m x. induction n as [ty data attr cs IH] using Node_induction.
  intros m x Hm Hx. rewrite nodesOf_unfold in Hm.
  apply elem_of_cons in Hm as [-> | Hm]; [done |].
  apply elem_of_flat_map in Hm as (c & Hc & Hm). simpl in Hc.
  apply (nodesOf_child _ c); [done |].
  rewrite Forall_forall in IH. by apply (IH c Hc m).
Qed.

Lemma subtree_node up n r : r ∈ subtree up n → ref_node r ∈ nodesOf n.
Proof.
  revert up r. induction n as [ty data attr cs IH] using Node_induction.
  intros up r Hr. rewrite subtree_unfold in Hr.
  apply elem_of_cons in Hr as [-> | Hr]; [apply nodesOf_self |].
  apply elem_of_flat_map in Hr as (c & Hc & Hr). simpl in Hc.
  apply (nodesOf_child _ c); [done |].
  rewrite Forall_forall in IH. by eapply (IH c Hc).
Qed.

Lemma subtree_up up n r p :
  r ∈ subtree up n → p ∈ ref_up r → p ∈ up ∨ p ∈ nodesOf n.
Proof.
  revert up r. induction n as [ty data attr cs IH] using Node_induction.
  intros up r Hr Hp. rewrite subtree_unfold in Hr.
  apply elem_of_cons in Hr as [-> | Hr]; [by left |].
  apply elem_of_flat_map in Hr as (c & Hc & Hr). simpl in Hc.
  rewrite Forall_forall in IH.
  destruct (IH c Hc _ r Hr Hp) as [Hup | Hbelow].
  - apply elem_of_cons in Hup as [-> | Hup]; [right; apply nodesOf_self | by left].
  - right. by apply (nodesOf_child _ c).
Qed.

Lemma below_node s r : r ∈ below s → ref_node r ∈ nodesOf (ref_node s).
Proof.
  unfold below. intros Hr. apply elem_of_flat_map in Hr as (c & Hc & Hr).
  destruct (isElement c); [| by apply elem_of_nil in Hr].
  apply (nodesOf_child _ c); [done |]. by apply subtree_node in Hr.
Qed.

Lemma below_up s r p :
  r ∈ below s → p ∈ ref_up r →
  p = ref_node s ∨ p ∈ ref_up s ∨ p ∈ nodesOf (ref_node s).
Proof.
  unfold below. intros Hr Hp. apply elem_of_flat_map in Hr as (c & Hc & Hr).
  destruct (isElement c); [| by apply elem_of_nil in Hr].
  destruct (subtree_up _ _ _ _ Hr Hp) as [Hup | Hbelow].
  - apply elem_of_cons in Hup as [-> | Hup]; auto.
  - right. right. by apply (nodesOf_child _ c).
Qed.

Lemma Find_elem s selector r :
  r ∈ goquery.Find s selector → r ∈ below s ∧ goquery.Is r selector = true.
Proof.
  rewrite Find_below. intros Hr. by apply list_elem_of_filter in Hr as [? ?].
Qed.

Lemma parentsOf_node up r : r ∈ goquery.parentsOf up → ref_node r ∈ up.
Proof.
  induction up as [|p up IH]; simpl; [intros Hr; by apply elem_of_nil in Hr |].
  rewrite elem_of_app. intros [Hr | Hr]; [| right; by apply IH].
  destruct (isElement p); [| by apply elem_of_nil in Hr].
  apply list_elem_of_singleton in Hr as ->. by left.
Qed.

Section Origin.
Context `{L : GoLib}.

Lemma Find_root_inDocument doc selector s :
  s ∈ goquery.Find (goquery.root doc) selector → inDocument doc s.
Proof.
  intros Hs. apply Find_elem in Hs as [Hs _]. split.
  - by apply below_node in Hs.
  - intros p Hp. destruct (below_up _ _ _ Hs Hp) as [-> | [Hup | Hp']].
    + apply nodesOf_self.
    + by apply elem_of_nil in Hup.
    + done.
Qed.

Lemma selfLink_fromAnchor doc base s x :
  ref_node s ∈ nodesOf doc → selfLink s base = Some x → fromAnchor doc base x.
Proof.
  intros Hs. unfold selfLink. destruct (goquery.Is s "a") eqn:Hself; [| done].
  destruct (goquery.Attr s "href") as [href|] eqn:Hhref; [| done].
  intros [= <-]. by exists s, href.
Qed.

Lemma firstAnchorLink_fromAnchor doc base s x :
  ref_node s ∈ nodesOf doc → x ∈ firstAnchorLink s base → fromAnchor doc base x.
Proof.
  intros Hs Hx. unfold firstAnchorLink in Hx.
  apply list_elem_of_omap in Hx as (l & Hl & Hx).
  apply (subseteq_take 1) in Hl. apply Find_elem in Hl as [Hbelow Hanchor].
  destruct (goquery.Attr l "href") as [href|] eqn:Hhref; [| done].
  injection Hx as <-. exists l, href. repeat split; try done.
  apply (nodesOf_trans _ (ref_node s)); [done | by apply below_node].
Qed.

Lemma findClosestLink_fromAnchor doc base s :
  inDocument doc s → Webhook.findClosestLink s base ≠ "" →
  fromAnchor doc base (Webhook.findClosestLink s base).
Proof.
  intros [Hs Hup]. rewrite findClosestLink_chain.
  destruct (selfLink s base) as [r|] eqn:Hself.
  { intros _. by apply (selfLink_fromAnchor doc base s). }
  intros Hne. apply firstNonEmpty_elem in Hne.
  revert Hne. generalize (firstNonEmpty (ancestorLinks s base
    ++ firstAnchorLink s base ++ containerLinks s base)). intros x.
  rewrite !elem_of_app. intros [Hx | [Hx | Hx]].
  - unfold ancestorLinks in Hx. apply list_elem_of_omap in Hx as (p & Hp & Hx).
    apply (selfLink_fromAnchor doc base p); [| done].
    apply Hup. by apply parentsOf_node.
  - by apply (firstAnchorLink_fromAnchor doc base s).
  - unfold containerLinks in Hx. apply elem_of_flat_map in Hx as (p & Hp & Hx).
    apply (firstAnchorLink_fromAnchor doc base p); [| done].
    apply Hup. by apply parentsOf_node.
Qed.

Lemma discovered_fromAnchor doc base phrase x :
  x ∈ discovered doc base phrase → x ≠ "" → fromAnchor doc base x.
Proof.
  unfold discovered. rewrite !elem_of_app. intros [Hx | [Hx | Hx]] Hne.
  - unfold anchorOffers in Hx. apply list_elem_of_omap in Hx as (s & Hs & Hx).
    destruct (holdsPhrase [s] phrase); [| done].
    destruct (goquery.Attr s "href") as [href|] eqn:Hhref; [| done].
    injection Hx as <-. exists s, href.
    pose proof (Find_root_inDocument _ _ _ Hs) as [Hnode _].
    apply Find_elem in Hs as [_ Hanchor]. done.
  - unfold selectorOffers, scanned in Hx.
    apply list_elem_of_omap in Hx as (s & Hs & Hx).
    apply elem_of_flat_map in Hs as (selector & _ & Hs).
    destruct (holdsPhrase [s] phrase); [| done]. injection Hx as <-.
    apply findClosestLink_fromAnchor; [| done].
    by apply (Find_root_inDocument doc selector).
  - unfold directOffers in Hx. apply list_elem_of_omap in Hx as (s & Hs & Hx).
    destruct (holdsPhrase [goquery.withoutChildren s] phrase); [| done].
    injection Hx as <-.
    apply findClosestLink_fromAnchor; [| done].
    by apply (Find_root_inDocument doc "*").
Qed.

End Origin.

(** X11. The Link Candidate Extractor makes up no link: every link it
    returns is the base URL itself or the resolution, against the parsed
    base URL, of the href of an anchor element of the document. *)
Theorem links_come_from_anchors `{L : GoLib} (doc : goquery.Document)
    (baseURL phrase x : string) :
  x ∈ Webhook.findLinksForText doc baseURL phrase →
  x = baseURL
  ∨ ∃ base, url_Parse baseURL = Some base ∧ fromAnchor doc base x.
Proof.
  destruct (url_Parse baseURL) as [base|] eqn:Hbase.
  - destruct (onProductPage doc baseURL phrase) eqn:Hpage.
    + rewrite (findLinksForText_page doc baseURL base) by done.
      intros Hx. left. by apply list_elem_of_singleton in Hx.
    + rewrite (findLinksForText_scan doc baseURL base) by done. simpl.
      intros Hx. right. exists base. split; [done |].
      assert (x ∈ candidateLinks (discovered doc base phrase)) as Hc.
      { revert Hx. case_bool_decide; intros Hx;
          by apply list_elem_of_filter in Hx as [_ ?]. }
      apply candidateLinks_elem in Hc as [Hd Hne].
      by apply (discovered_fromAnchor doc base phrase).
  - rewrite findLinksForText_unparsed by done.
    intros Hx. by apply elem_of_nil in Hx.
Qed.

Lemma links_come_from_anchors_witness :
  "https://x.test/products/7" = "https://x.test"
  ∨ ∃ base, @url_Parse lib "https://x.test" = Some base
            ∧ fromAnchor (L := lib) Samples.listing base "https://x.test/products/7".
Proof.
  apply (links_come_from_anchors (L := lib) Samples.listing "https://x.test"
           "in stock" "https://x.test/products/7").
  vm_compute. left.
Defined.

(** X12. With a configuration the webhook program has loaded, whatever
    a cycle hands to the notifier is well formed: the match text is the
    [SEARCH_TEXT] of the environment, there is at least one link, and no
    link is the empty string. *)
Theorem configured_cycle_notifies_well `{L : GoLib} `{H : ConfigLib}
    (env : Environ) (c : Webhook.Config) (get : Fetcher)
    (t : string) (ls : list string) :
  Webhook.loadConfig env = Loaded c →
  (t, ls) ∈ notifications (Webhook.checkWebsite get c) →
  t = Getenv env "SEARCH_TEXT" ∧ ls ≠ [] ∧ ∀ x, x ∈ ls → x ≠ "".
Proof.
  intros Hload Hin.
  assert (Webhook.WebsiteURL c ≠ "" ∧ Webhook.SearchText c = Getenv env "SEARCH_TEXT")
    as [Hurl Htext].
  { revert Hload. unfold Webhook.loadConfig. rewrite !getEnv_required.
    destruct (isEmpty (Getenv env "WEBSITE_URL")) eqn:Hw; [done |].
    destruct (isEmpty (Getenv env "SEARCH_TEXT")); [done |].
    destruct (isEmpty (Getenv env "DISCORD_WEBHOOK")); [done |].
    destruct (time_ParseDuration _); [| done].
    intros [= <-]. simpl. by apply isEmpty_false in Hw. }
  split; [| split].
  - destruct (Webhook_cycle_cases get c) as [[Hnone _] | (doc & _ & _ & Hone)].
    + rewrite Hnone in Hin. by apply elem_of_nil in Hin.
    + rewrite Hone in Hin. by apply list_elem_of_singleton in Hin as [= -> _].
  - by apply (Webhook_notified_links get c t).
  - intros x. by apply (Webhook_notified_not_empty get c t).
Qed.

Lemma configured_cycle_notifies_well_witness :
  "In Stock" = Getenv webhookEnv "SEARCH_TEXT"
  ∧ ["https://x.test/"] ≠ []
  ∧ ∀ x, x ∈ ["https://x.test/"] → x ≠ "".
Proof.
  apply (configured_cycle_notifies_well (L := lib) (H := configLib) webhookEnv
           (Samples.webhook "https://x.test/")
           (Samples.serves "Blue Widget in stock")).
  - vm_compute. reflexivity.
  - vm_compute. left.
Defined.

(** X13. Up to their notifiers the two programs run the same cycle:
    configured with the same URL and search text and given the same
    answer to the fetch, [checkWebsite] of the email program prints and
    logs the same lines of its own as [checkWebsite] of the webhook
    program and calls its notifier at the same point with the same match
    text and the same links.  A [Notified] event of the trace is the call
    of the program's notifier, [sendEmailNotification] in the one and
    [sendDiscordNotification] in the other; what the two notifiers print,
    log and send themselves differs and is no part of the trace. *)
Theorem cycles_agree `{L : GoLib} (get : Fetcher)
    (wc : Webhook.Config) (ec : Email.Config) :
  Email.WebsiteURL ec = Webhook.WebsiteURL wc →
  Email.SearchText ec = Webhook.SearchText wc →
  Email.checkWebsite get ec = Webhook.checkWebsite get wc.
Proof.
  intros Hurl Htext. unfold Email.checkWebsite, Webhook.checkWebsite.
  rewrite Hurl, Htext.
  destruct (get (Webhook.WebsiteURL wc)) as [resp|]; [| done].
  case_bool_decide; [done |].
  destruct (NewDocumentFromReader (Body resp)) as [doc|]; [| done].
  destruct (negb _); [done |].
  change (Email.findLinksForText_log ?u) with (Webhook.findLinksForText_log u).
  by rewrite Email_findLinksForText.
Qed.

Lemma cycles_agree_witness :
  Email.checkWebsite (L := lib) (Samples.serves "Blue Widget in stock")
    (Samples.email "https://x.test/")
  = Webhook.checkWebsite (L := lib) (Samples.serves "Blue Widget in stock")
      (Samples.webhook "https://x.test/").
Proof.
  apply (cycles_agree (L := lib) (Samples.serves "Blue Widget in stock")
           (Samples.webhook "https://x.test/") (Samples.email "https://x.test/"));
    reflexivity.
Defined.

(** *** The main loop *)

Lemma notifications_cycles `{L : GoLib} (config : Webhook.Config)
    (out : list Event) (ticks : list Fetcher) :
  notifications (foldl (λ out get, out ++ Webhook.checkWebsite get config) out ticks)
  = notifications out
    ++ flat_map (λ get, notifications (Webhook.checkWebsite get config)) ticks.
Proof.
  revert out. induction ticks as [|get ticks IH]; intros out; simpl.
  - by rewrite app_nil_r.
  - by rewrite IH, notifications_app, app_assoc.
Qed.

Lemma cycles_at_most `{L : GoLib} (config : Webhook.Config) (gets : list Fetcher) :
  length (flat_map (λ get, notifications (Webhook.checkWebsite get config)) gets)
  <= length gets.
Proof.
  induction gets as [|get gets IH]; [simpl; lia |].
  cbn [flat_map]. rewrite length_app.
  destruct (Webhook_cycle_cases get config) as [[-> _] | (doc & _ & _ & ->)];
    cbn [length]; lia.
Qed.

(** X14. With a configuration that loads and a positive interval, the
    webhook program runs the initial check and one check for every tick,
    all with the same configuration: the notifier calls of the run are
    those of these cycles in order, at most one for each, and the program
    then waits for the next tick. *)
Theorem main_checks_every_tick `{L : GoLib} `{H : ConfigLib} (env : Environ)
    (c : Webhook.Config) (first : Fetcher) (ticks : list Fetcher) :
  Webhook.loadConfig env = Loaded c →
  (0 < Webhook.CheckInterval c)%Z →
  notifications (Webhook.main env first ticks).1
  = flat_map (λ get, notifications (Webhook.checkWebsite get c)) (first :: ticks)
  ∧ length (notifications (Webhook.main env first ticks).1) <= S (length ticks)
  ∧ (Webhook.main env first ticks).2 = Waiting.
Proof.
  intros Hload Hpos. unfold Webhook.main. rewrite Hload.
  cbv zeta. rewrite bool_decide_false by lia. cbn [fst snd].
  rewrite notifications_cycles.
  assert (notifications
            ([Printed "Starting web scraper..."; Printed "Website: ";
              Printed "Search text: "; Printed "Check interval: "; Printed ""]
             ++ Webhook.checkWebsite first c)
          = notifications (Webhook.checkWebsite first c)) as -> by done.
  split; [done |]. split; [| done].
  apply (cycles_at_most c (first :: ticks)).
Qed.

Lemma main_checks_every_tick_witness :
  notifications (Webhook.main (L := lib) (H := configLib) webhookEnv
                   (Samples.serves "Blue Widget in stock")
                   [Samples.serves "Blue Widget sold out"]).1
  = flat_map (λ get, notifications
                       (Webhook.checkWebsite (L := lib) get
                          (Samples.webhook "https://x.test/")))
             [Samples.serves "Blue Widget in stock";
              Samples.serves "Blue Widget sold out"]
  ∧ length (notifications (Webhook.main (L := lib) (H := configLib) webhookEnv
                             (Samples.serves "Blue Widget in stock")
                             [Samples.serves "Blue Widget sold out"]).1) <= 2
  ∧ (Webhook.main (L := lib) (H := configLib) webhookEnv
       (Samples.serves "Blue Widget in stock")
       [Samples.serves "Blue Widget sold out"]).2 = Waiting.
Proof.
  apply (main_checks_every_tick (L := lib) (H := configLib) webhookEnv
           (Samples.webhook "https://x.test/")
           (Samples.serves "Blue Widget in stock")
           [Samples.serves "Blue Widget sold out"]).
  - vm_compute. reflexivity.
  - vm_compute. reflexivity.
Defined.

(** X15. An interval that parses but is not positive (such as "0s" or
    "-5m") passes [loadConfig]; the webhook program then runs the initial
    check and stops in [time.NewTicker], before any periodic check: the
    ticks change nothing of what it does. *)
Theorem main_interval_not_positive `{L : GoLib} `{H : ConfigLib} (env : Environ)
    (c : Webhook.Config) (first : Fetcher) (ticks : list Fetcher) :
  Webhook.loadConfig env = Loaded c →
  (Webhook.CheckInterval c <= 0)%Z →
  Webhook.main env first ticks
  = ([Printed "Starting web scraper..."; Printed "Website: ";
      Printed "Search text: "; Printed "Check interval: "; Printed ""]
     ++ Webhook.checkWebsite first c, Panicked).
Proof.
  intros Hload Hneg. unfold Webhook.main. rewrite Hload.
  by rewrite bool_decide_true by done.
Qed.

Lemma main_interval_not_positive_witness :
  Webhook.main (L := lib) (H := configLib) (<["CHECK_INTERVAL" := "0s"]> webhookEnv)
    (Samples.serves "Blue Widget in stock") [Samples.serves "Blue Widget in stock"]
  = ([Printed "Starting web scraper..."; Printed "Website: ";
      Printed "Search text: "; Printed "Check interval: "; Printed ""]
     ++ Webhook.checkWebsite (L := lib) (Samples.serves "Blue Widget in stock")
          (Webhook.mkConfig "https://x.test/" "In Stock"
                            "https://discord.test/hook" 0), Panicked).
Proof.
  apply (main_interval_not_positive (L := lib) (H := configLib)
           (<["CHECK_INTERVAL" := "0s"]> webhookEnv)
           (Webhook.mkConfig "https://x.test/" "In Stock"
                             "https://discord.test/hook" 0)).
  - vm_compute. reflexivity.
  - vm_compute. discriminate.
Defined.

(** X16. When a required variable of the webhook program is missing or
    empty, the program exits with one fatal line and runs no check at
    all, whatever the page would have answered. *)
Theorem main_missing_setting `{L : GoLib} `{H : ConfigLib} (env : Environ)
    (first : Fetcher) (ticks : list Fetcher) :
  Getenv env "WEBSITE_URL" = "" ∨ Getenv env "SEARCH_TEXT" = ""
  ∨ Getenv env "DISCORD_WEBHOOK" = "" →
  ∃ msg, Webhook.main env first ticks = ([Logged msg], Exited).
Proof.
  intros Hmissing. unfold Webhook.main, Webhook.loadConfig.
  rewrite !getEnv_required.
  destruct (isEmpty (Getenv env "WEBSITE_URL")) eqn:Hw; [by eexists |].
  destruct (isEmpty (Getenv env "SEARCH_TEXT")) eqn:Hs; [by eexists |].
  destruct (isEmpty (Getenv env "DISCORD_WEBHOOK")) eqn:Hd; [by eexists |].
  apply isEmpty_false in Hw, Hs, Hd. by destruct Hmissing as [? | [? | ?]].
Qed.

Lemma main_missing_setting_witness :
  ∃ msg, Webhook.main (L := lib) (H := configLib) (delete "SEARCH_TEXT" webhookEnv)
           (Samples.serves "Blue Widget in stock") []
         = ([Logged msg], Exited).
Proof.
  apply (main_missing_setting (L := lib) (H := configLib)
           (delete "SEARCH_TEXT" webhookEnv)).
  right. left. vm_compute. reflexivity.
Defined.

(** *** The messages *)

Lemma prefix_append x b : String.prefix x (x +:+ b) = true.
Proof.
  induction x as [|c x IH]; [apply prefix_nil |].
  rewrite append_cons. simpl. by destruct (ascii_dec c c).
Qed.

Lemma prefix_append_l x a b :
  String.prefix x a = true → String.prefix x (a +:+ b) = true.
Proof.
  revert a. induction x as [|c x IH]; intros a; [intros _; apply prefix_nil |].
  destruct a as [|d a]; [done |]. rewrite append_cons. simpl.
  destruct (ascii_dec c d); [apply IH | done].
Qed.

Lemma Contains_unfold s x :
  strings.Contains s x
  = if String.prefix x s then true
    else match s with
         | EmptyString => false
         | String _ s' => strings.Contains s' x
         end.
Proof. by destruct s. Qed.

Lemma Contains_here x b : strings.Contains (x +:+ b) x = true.
Proof. by rewrite Contains_unfold, prefix_append. Qed.

Lemma Contains_append_l a b x :
  strings.Contains a x = true → strings.Contains (a +:+ b) x = true.
Proof.
  induction a as [|c a IH]; rewrite (Contains_unfold _ x).
  - destruct x as [|d x]; [| done]. intros _.
    by rewrite Contains_unfold, prefix_nil.
  - destruct (String.prefix x (String c a)) eqn:Hp.
    + intros _. by rewrite Contains_unfold, prefix_append_l.
    + intros Ha. rewrite append_cons, Contains_unfold.
      destruct (String.prefix x (String c (a +:+ b))); [done | by apply IH].
Qed.

Lemma Contains_append_r a b x :
  strings.Contains b x = true → strings.Contains (a +:+ b) x = true.
Proof.
  intros Hb. induction a as [|c a IH]; [done |].
  rewrite append_cons, Contains_unfold.
  by destruct (String.prefix x (String c (a +:+ b))).
Qed.

Lemma Contains_joined lines line x :
  line ∈ lines → strings.Contains line x = true →
  strings.Contains (joined lines) x = true.
Proof.
  intros Hin Hx. induction lines as [|l lines IH]; [by apply elem_of_nil in Hin |].
  simpl. apply elem_of_cons in Hin as [<- | Hin].
  - by apply Contains_append_l.
  - apply Contains_append_r. by apply IH.
Qed.

(** The loop of the links builder writes the numbered lines. *)
Lemma builder_numbered (links : list string) (i : nat) (b : string) :
  foldl (λ '(i, b) link, (i + 1, b +:+ pretty (i + 1) +:+ ". " +:+ link +:+ LF))
        (i, b) links
  = (i + length links,
     b +:+ joined (imap (λ k link, pretty (i + k + 1) +:+ ". " +:+ link +:+ LF) links)).
Proof.
  revert i b. induction links as [|link links IH]; intros i b; simpl.
  - by rewrite Nat.add_0_r, append_nil_r.
  - rewrite IH. f_equal; [lia |].
    rewrite (imap_ext _ ((λ k link, pretty (i + k + 1) +:+ ". " +:+ link +:+ LF) ∘ S))
      by (intros k l _; simpl; do 2 f_equal; lia).
    by rewrite Nat.add_0_r, !append_assoc.
Qed.

(** X17. The links section of either message is empty for no links,
    and otherwise its heading followed by one line for each link, in the
    order handed over and numbered from 1. *)
Theorem links_are_numbered (links : list string) :
  Webhook.linksText links
  = (if bool_decide (links = []) then ""
     else LF +:+ LF +:+ "**Links:**" +:+ LF +:+ joined (numbered links))
  ∧ Email.linksText links
    = (if bool_decide (links = []) then ""
       else LF +:+ LF +:+ "Links:" +:+ LF +:+ joined (numbered links)).
Proof.
  unfold Webhook.linksText, Email.linksText, numbered.
  destruct links as [|link links]; [done |].
  rewrite bool_decide_true by (simpl; lia).
  rewrite bool_decide_false by done.
  rewrite !builder_numbered. simpl. by rewrite !append_assoc.
Qed.

Lemma numbered_mentions (links : list string) (i : nat) (x : string) :
  x ∈ links →
  strings.Contains
    (joined (imap (λ k link, pretty (i + k + 1) +:+ ". " +:+ link +:+ LF) links)) x
  = true.
Proof.
  intros Hx. apply list_elem_of_lookup in Hx as [k Hk].
  apply (Contains_joined _ (pretty (i + k + 1) +:+ ". " +:+ x +:+ LF)).
  - apply list_elem_of_lookup. exists k. by rewrite list_lookup_imap, Hk.
  - apply Contains_append_r, Contains_append_r, Contains_here.
Qed.

Lemma Webhook_linksText_mentions links x :
  x ∈ links → strings.Contains (Webhook.linksText links) x = true.
Proof.
  intros Hx. unfold Webhook.linksText.
  rewrite bool_decide_true by (destruct links; [by apply elem_of_nil in Hx | simpl; lia]).
  rewrite builder_numbered. cbn [snd]. by apply Contains_append_r, numbered_mentions.
Qed.

Lemma Email_linksText_mentions links x :
  x ∈ links → strings.Contains (Email.linksText links) x = true.
Proof.
  intros Hx. unfold Email.linksText.
  rewrite bool_decide_true by (destruct links; [by apply elem_of_nil in Hx | simpl; lia]).
  rewrite builder_numbered. cbn [snd]. by apply Contains_append_r, numbered_mentions.
Qed.

Create HintDb mentions.
#[local] Hint Resolve Contains_here Contains_append_l Contains_append_r
  Webhook_linksText_mentions Email_linksText_mentions : mentions.

(** X18. Nothing handed over is lost on the way into the message: the
    webhook message holds the website URL, the match text, the time and
    every link; the email message holds these and the two addresses. *)
Theorem messages_mention_everything (now matchText : string) (links : list string)
    (wc : Webhook.Config) (ec : Email.Config) :
  (∀ x, x ∈ Webhook.WebsiteURL wc :: matchText :: now :: links →
        strings.Contains (Webhook.message now wc matchText links) x = true)
  ∧ (∀ x, x ∈ Email.EmailFrom ec :: Email.EmailTo ec :: Email.WebsiteURL ec
              :: matchText :: now :: links →
          strings.Contains (Email.message now ec matchText links) x = true).
Proof.
  split; intros x Hx.
  - unfold Webhook.message.
    repeat (apply elem_of_cons in Hx as [-> | Hx]); auto 20 with mentions.
  - unfold Email.message, Email.body, Email.subject.
    repeat (apply elem_of_cons in Hx as [-> | Hx]); auto 20 with mentions.
Qed.

(** X19. [sendDiscordNotification] ends in exactly one line, and that
    line reports success exactly when the payload was marshalled and the
    webhook answered the POST to the configured URL with a status from
    200 to 299; 199, 300 and a transport error are logged as errors. *)
Theorem discord_success_is_2xx (marshal : string → option string)
    (post : Poster) (now : string) (config : Webhook.Config)
    (matchText : string) (links : list string) :
  length (Webhook.sendDiscordNotification marshal post now config matchText links) = 1
  ∧ (Webhook.sendDiscordNotification marshal post now config matchText links
     = [Printed "Discord notification sent successfully!"] ↔
     ∃ jsonData status,
       marshal (Webhook.message now config matchText links) = Some jsonData
       ∧ post (Webhook.DiscordWebhook config) "application/json" jsonData = Some status
       ∧ (200 <= status < 300)%Z).
Proof.
  unfold Webhook.sendDiscordNotification.
  destruct (marshal _) as [jsonData|] eqn:Hm.
  2: { split; [done |]. split; [done |]. intros (? & ? & [=] & _). }
  destruct (post _ _ _) as [status|] eqn:Hp.
  2: { split; [done |]. split; [done |].
       intros (? & ? & [= <-] & Hp' & _). congruence. }
  destruct (decide (200 <= status < 300)%Z) as [Hok | Hbad].
  - rewrite !bool_decide_true by lia. simpl. split; [done |].
    split; [| done]. intros _. by exists jsonData, status.
  - assert (bool_decide (200 <= status)%Z && bool_decide (status < 300)%Z = false)
      as ->.
    { repeat case_bool_decide; simpl; try done. lia. }
    split; [done |]. split; [done |].
    intros (jsonData' & status' & [= <-] & Hp' & ?).
    assert (status' = status) as -> by congruence. done.
Qed.

(** *** The accumulator of the extractor *)

Lemma addLink_AccOk st l : AccOk st → AccOk (Webhook.addLink l st).
Proof.
  intros (Hnodup & Hmap & Hprod & Hother). unfold Webhook.addLink.
  destruct (isEmpty l) eqn:Hl; simpl; [done |].
  destruct (mapGet (linkMap st) l) eqn:Hget; simpl; [done |].
  apply isEmpty_false in Hl.
  assert (l ∉ productLinks st ++ otherLinks st) as Hfresh.
  { intros Hin. apply Hmap in Hin. congruence. }
  rewrite elem_of_app in Hfresh.
  apply NoDup_app in Hnodup as (Hp & Hdisj & Ho).
  fold (isProduct l). destruct (isProduct l) eqn:Hclass;
    (split; [| split; [| split]]); simpl.
  - apply NoDup_app. split; [| split; [| done]].
    + apply NoDup_app. split; [done |]. split; [| apply NoDup_singleton].
      intros x Hx Hx'. apply list_elem_of_singleton in Hx' as ->. tauto.
    + intros x Hx. apply elem_of_app in Hx as [Hx | Hx]; [by apply Hdisj |].
      apply list_elem_of_singleton in Hx as ->. tauto.
  - intros k.
    rewrite mapGet_insert, Hmap, !elem_of_app, list_elem_of_singleton. tauto.
  - intros k Hk. apply elem_of_app in Hk as [Hk | Hk]; [by apply Hprod |].
    by apply list_elem_of_singleton in Hk as ->.
  - done.
  - rewrite app_assoc. apply NoDup_app. split; [| split; [| apply NoDup_singleton]].
    + by apply NoDup_app.
    + intros x Hx Hx'. apply list_elem_of_singleton in Hx' as ->.
      rewrite elem_of_app in Hx. tauto.
  - intros k.
    rewrite mapGet_insert, Hmap, !elem_of_app, list_elem_of_singleton. tauto.
  - done.
  - intros k Hk. apply elem_of_app in Hk as [Hk | Hk]; [by apply Hother |].
    by apply list_elem_of_singleton in Hk as ->.
Qed.

Lemma addLink_again st l :
  Webhook.addLink l (Webhook.addLink l st) = Webhook.addLink l st.
Proof.
  unfold Webhook.addLink at 2 3.
  destruct (isEmpty l) eqn:Hl; simpl.
  { unfold Webhook.addLink. by rewrite Hl. }
  destruct (mapGet (linkMap st) l) eqn:Hget; simpl.
  { unfold Webhook.addLink. by rewrite Hl, Hget. }
  destruct (strings.Contains l "/products/"); unfold Webhook.addLink; simpl;
    rewrite Hl; simpl;
    by rewrite (proj2 (mapGet_insert (linkMap st) l l)) by (by left).
Qed.

Lemma foldl_addLink_AccOk st found :
  AccOk st → AccOk (foldl (λ st l, Webhook.addLink l st) st found).
Proof.
  revert st. induction found as [|l found IH]; intros st Hst; simpl; [done |].
  by apply IH, addLink_AccOk.
Qed.

(** X20. The three accumulators of the extractor stay coherent: from
    the empty state on, through every link added and through the three
    scans, [linkMap] marks exactly the links of the two slices, which
    hold no link twice, no empty link, and product links apart from the
    others; and adding a link a second time changes nothing. *)
Theorem accumulator_stays_coherent `{L : GoLib} :
  AccOk (mkAcc ∅ [] [])
  ∧ (∀ st l, AccOk st → AccOk (Webhook.addLink l st))
  ∧ (∀ st l, Webhook.addLink l (Webhook.addLink l st) = Webhook.addLink l st)
  ∧ (∀ doc base phrase st,
        AccOk st →
        AccOk (Webhook.scanAll doc base phrase
                 (Webhook.scanSelectors doc base phrase
                    (Webhook.scanAnchors doc base phrase st)))).
Proof.
  split; [| split; [| split]].
  - split; [constructor |]. split; [| split].
    + intros l. unfold mapGet. simpl. rewrite lookup_empty. simpl.
      split; [done | intros Hin; by apply elem_of_nil in Hin].
    + intros l Hin. by apply elem_of_nil in Hin.
    + intros l Hin. by apply elem_of_nil in Hin.
  - intros st l. apply addLink_AccOk.
  - intros st l. apply addLink_again.
  - intros doc base phrase st Hst.
    rewrite scanAll_offers, scanSelectors_offers, scanAnchors_offers.
    by do 3 apply foldl_addLink_AccOk.
Qed.

(** *** Pages without links *)

(** The extractor returns no link twice. *)
Lemma extractor_links_NoDup `{L : GoLib} doc baseURL phrase :
  NoDup (Webhook.findLinksForText doc baseURL phrase).
Proof.
  destruct (url_Parse baseURL) as [base|] eqn:Hbase.
  - destruct (onProductPage doc baseURL phrase) eqn:Hpage.
    + rewrite (findLinksForText_page doc baseURL base) by done.
      apply NoDup_singleton.
    + rewrite (findLinksForText_scan doc baseURL base) by done. simpl.
      case_bool_decide; apply NoDup_filter, candidateLinks_NoDup.
  - rewrite findLinksForText_unparsed by done. constructor.
Qed.

(** X21. On a page none of whose anchors has an href, the Link
    Candidate Extractor finds nothing beside the base URL, so a cycle
    that matches hands the notifier exactly the page's own URL. *)
Theorem page_without_links `{L : GoLib} (doc : goquery.Document)
    (url searchText : string) :
  (∀ a, ref_node a ∈ nodesOf doc → goquery.Is a "a" = true →
        goquery.Attr a "href" = None) →
  (∀ phrase x, x ∈ Webhook.findLinksForText doc url phrase → x = url)
  ∧ finalLinks doc url searchText = [url].
Proof.
  intros Hnone.
  assert (∀ phrase x, x ∈ Webhook.findLinksForText doc url phrase → x = url) as Hall.
  { intros phrase x Hx.
    destruct (url_Parse url) as [base|] eqn:Hbase.
    - destruct (onProductPage doc url phrase) eqn:Hpage.
      + rewrite (findLinksForText_page doc url base) in Hx by done.
        by apply list_elem_of_singleton in Hx.
      + rewrite (findLinksForText_scan doc url base) in Hx by done. simpl in Hx.
        assert (x ∈ candidateLinks (discovered doc base phrase)) as Hc.
        { revert Hx. case_bool_decide; intros Hx;
            by apply list_elem_of_filter in Hx as [_ ?]. }
        apply candidateLinks_elem in Hc as [Hd Hne].
        destruct (discovered_fromAnchor doc base phrase x Hd Hne)
          as (a & href & Ha & Hanchor & Hhref & _).
        rewrite (Hnone a Ha Hanchor) in Hhref. done.
    - rewrite findLinksForText_unparsed in Hx by done. by apply elem_of_nil in Hx. }
  split; [done |].
  unfold finalLinks. case_bool_decide as Hlen; [| done].
  pose proof (Hall (strings_ToLower searchText)) as Hurl.
  pose proof (extractor_links_NoDup doc url (strings_ToLower searchText)) as Hnodup.
  destruct (Webhook.findLinksForText doc url (strings_ToLower searchText))
    as [|x [|y rest]]; simpl in Hlen; [lia | |].
  - f_equal. apply Hurl. by left.
  - exfalso. apply NoDup_cons in Hnodup as [Hx _]. apply Hx.
    rewrite (Hurl x) by (by left). rewrite (Hurl y) by (right; by left). by left.
Qed.

Lemma page_without_links_witness :
  (∀ phrase x,
      x ∈ Webhook.findLinksForText (L := lib) (Samples.plain "Blue Widget in stock")
            "https://x.test/" phrase → x = "https://x.test/")
  ∧ finalLinks (L := lib) (Samples.plain "Blue Widget in stock")
      "https://x.test/" "In Stock" = ["https://x.test/"].
Proof.
  apply (page_without_links (L := lib) (Samples.plain "Blue Widget in stock")
           "https://x.test/" "In Stock").
  intros a Ha Hanchor. vm_compute in Ha.
  repeat (apply elem_of_cons in Ha as [Ha | Ha];
          [destruct a as [n up]; simpl in Ha; subst n; vm_compute in Hanchor;
           discriminate |]).
  by apply elem_of_nil in Ha.
Defined.
